(** * Buyer risk assessment engine (api.py): a shallow embedding

    The engine of [api.py] is the class [BuyerRiskAssessor].  Its methods are
    embedded below, one Rocq definition per method, in the order of the
    source.

    - Prices, values, equities, deposits and distances are the [float]
      fields of the pydantic model [BuyerData]; they are binary64 numbers
      and are embedded as Rocq's primitive floats, so that comparisons and
      the two arithmetic operations of the engine ([/] and [*]) are the IEEE
      ones Python performs.
    - The age is a Python [int], embedded as [Z].
    - Names and addresses are strings; [str.split()] is written out.
    - The instance attribute [self.REASONS] is the only mutable state; the
      methods that touch it, or that may raise, live in a state-and-exception
      monad [M] in which a raised exception keeps the state reached so far,
      as in Python. *)

From Stdlib Require Import List ListSet String Ascii Bool ZArith Lia DecimalString.
From Stdlib Require Import Floats.
Import ListNotations.

Local Open Scope string_scope.
Local Open Scope list_scope.

(* ================================================================== *)
(** ** Python values used by the engine *)

Module Py.

(** Exceptions the engine's own code can raise. *)
Inductive exn : Type :=
| ZeroDivisionError
| IndexError.

Inductive result (A : Type) : Type :=
| Ok (a : A)
| Raise (e : exn).
Arguments Ok {A} a.
Arguments Raise {A} e.

Definition result_bind {A B} (r : result A) (k : A -> result B) : result B :=
  match r with
  | Ok a => k a
  | Raise e => Raise e
  end.

(** [a / b] on floats: Python raises on a zero divisor of either sign and
    otherwise performs the IEEE division. *)
Definition truediv (a b : float) : result float :=
  if PrimFloat.eqb b 0 then Raise ZeroDivisionError else Ok (a / b)%float.

(** [x in l] and [x not in l] on lists of strings. *)
Definition contains (x : string) (l : list string) : bool :=
  existsb (String.eqb x) l.

(** [l.index(x)]: [None] stands for the [ValueError] of a missing element. *)
Fixpoint index {A} (eqb : A -> A -> bool) (l : list A) (x : A) : option nat :=
  match l with
  | [] => None
  | y :: l' => if eqb y x then Some 0 else option_map S (index eqb l' x)
  end.

(** Whitespace as [str.split()] sees it, on the one-byte characters:
    tab, line feed, vertical tab, form feed, carriage return, the four
    separators 0x1c..0x1f and the space.  A string is a sequence of bytes
    here, so the whitespace characters beyond ASCII count as letters. *)
Definition isspace (c : ascii) : bool :=
  let n := nat_of_ascii c in
  (Nat.leb 9 n && Nat.leb n 13) || (Nat.leb 28 n && Nat.leb n 32).

Definition flush (cur : list ascii) (acc : list string) : list string :=
  match cur with
  | [] => acc
  | _ :: _ => string_of_list_ascii (rev cur) :: acc
  end.

(** [s.split()] with no argument: the maximal runs of non-whitespace
    characters, in order.  [cur] is the run being read, reversed. *)
Fixpoint split_from (s : string) (cur : list ascii) : list string :=
  match s with
  | EmptyString => flush cur []
  | String c s' =>
      if isspace c then flush cur (split_from s' [])
      else split_from s' (c :: cur)
  end.

Definition split (s : string) : list string := split_from s [].

(** [l[-1]]: the last element, [IndexError] on the empty list. *)
Definition last_item {A} (l : list A) : result A :=
  match rev l with
  | [] => Raise IndexError
  | x :: _ => Ok x
  end.

(** [f"{n}"] for an [int]. *)
Definition str_of_int (n : Z) : string :=
  NilZero.string_of_int (Z.to_int n).

End Py.

Import Py.

(* ================================================================== *)
(** ** Data model *)

Record CoSigner : Type := mkCoSigner {
  CO_SIGNER_NAME_FROM_APS : string;
  CO_SIGNER_NAME_FROM_ID : string;
  CO_SIGNER_ADDRESS_FROM_APS : string;
  CO_SIGNER_ADDRESS_LIST_FROM_LANDREGISTRY : list string;
  CO_SIGNER_ALL_PROPERTIES_PURCHASE_PRICE_FROM_LANDREGISTRY : list float;
  CO_SIGNER_ALL_PROPERTIES_VALUE_FROM_AVM : list float;
  CO_SIGNER_ALL_PROPERTIES_TOTAL_DEBT_FROM_PURVIEW : list float;
  CO_SIGNER_ALL_PROPERTIES_EQUITY : list float
}.

(** [BuyerData.dict()]: every key is present, so the defaults of the engine's
    [.get(key, default)] calls are never used.  The listing-service name is
    [Optional[str]] ([None] is a legal value) with default [""]. *)
Record BuyerData : Type := mkBuyerData {
  PURCHASER_NAME_FROM_APS : string;
  PURCHASER_NAME_FROM_ID : string;
  PURCHASER_NAME_FROM_HOUSESIGMA : option string;
  PURCHASER_ADDRESS_FROM_APS : string;
  PURCHASER_ADDRESS_FROM_ID : string;
  PURCHASER_ADDRESS_LIST_FROM_LANDREGISTRY : list string;
  PURCHASER_AGE_FROM_ID : Z;
  PURCHASER_ALL_PROPERTIES_PURCHASE_PRICE_FROM_LANDREGISTRY : list float;
  PURCHASER_ALL_PROPERTIES_VALUE_FROM_AVM : list float;
  PURCHASER_ALL_PROPERTIES_TOTAL_DEBT_FROM_PURVIEW : list float;
  PURCHASER_ALL_PROPERTIES_EQUITY : list float;
  PURCHASER_DEPOSIT_PAID_FROM_APS : float;
  PURCHASER_ID_ISSUE_DATE : string;
  PURCHASER_DRIVER_LICENSE_TYPE : string;
  CO_SIGNER_LIST_FROM_APS : list CoSigner;
  DISTANCE : float;
  PRIMARY_RESIDENCE_PURCHASE_PRICE_FROM_LANDREGISTRY : float;
  PRIMARY_RESIDENCE_VALUE_FROM_AVM : float;
  PRIMARY_RESIDENCE_TOTAL_DEBT_FROM_PURVIEW : float;
  PRIMARY_RESIDENCE_EQUITY : float;
  PRIMARY_RESIDENCE_TITLE_NAMES : list string;
  PROPERTY_PRICE : float;
  OTHER_DEPOSIT_PAID_NAME_LIST_FROM_APS : list string;
  MORTGAGE_APPROVAL : bool;
  MORTGAGE_APPROVAL_NAMES : list string
}.

(** The value pydantic fills in when the request omits
    [PURCHASER_NAME_FROM_HOUSESIGMA]. *)
Definition HOUSESIGMA_default : option string := Some "".

(** The six tier constants set by [__init__]; [tier_label] is the string
    each attribute holds. *)
Inductive RiskTier : Type :=
| NO_RISK | VERY_LOW | LOW | MEDIUM | HIGH | VERY_HIGH.

Definition tier_label (t : RiskTier) : string :=
  match t with
  | NO_RISK => "No Risk"
  | VERY_LOW => "Very Low"
  | LOW => "Low"
  | MEDIUM => "Medium"
  | HIGH => "High"
  | VERY_HIGH => "Very High"
  end.

(** [==] on tiers is [==] on their labels. *)
Definition tier_eqb (a b : RiskTier) : bool :=
  String.eqb (tier_label a) (tier_label b).

(** An entry of the [risk_factors] list.  Three of the five entries
    interpolate a float into an f-string; the entry keeps the number and
    leaves its decimal rendering out. *)
Inductive RiskFactor : Type :=
| First_time_homebuyer
| Existing_property_owner
| Home_value_to_price_ratio (ratio : float)
| Deposit (deposit_pct : float)
| Long_distance (km : float)
| Age_risk_factor (age : Z).

(** The dictionary returned by [assess_buyer_risk]. *)
Record Verdict : Type := mkVerdict {
  risk_level : RiskTier;
  suggested_actions : list string;
  risk_factors : list RiskFactor;
  reasons : list string
}.

(* ================================================================== *)
(** ** The engine instance and its monad *)

Record BuyerRiskAssessor : Type := mkAssessor {
  REASONS : list string
}.

(** [__init__] *)
Definition init : BuyerRiskAssessor := mkAssessor [].

Definition M (A : Type) : Type :=
  BuyerRiskAssessor -> result A * BuyerRiskAssessor.

Definition ret {A} (a : A) : M A := fun self => (Ok a, self).

Definition bind {A B} (m : M A) (k : A -> M B) : M B :=
  fun self =>
    match m self with
    | (Ok a, self') => k a self'
    | (Raise e, self') => (Raise e, self')
    end.

Definition lift {A} (r : result A) : M A := fun self => (r, self).

(** [self.REASONS = []] *)
Definition REASONS_reset : M unit := fun _ => (Ok tt, mkAssessor []).

(** [self.REASONS.append(r)] *)
Definition REASONS_append (r : string) : M unit :=
  fun self => (Ok tt, mkAssessor (REASONS self ++ [r])).

(** reading [self.REASONS] *)
Definition REASONS_get : M (list string) := fun self => (Ok (REASONS self), self).

Declare Scope engine_scope.
Delimit Scope engine_scope with engine.
Notation "x <- m ;; k" := (bind m (fun x => k))
  (at level 61, m at next level, right associativity) : engine_scope.
Notation "' pat <- m ;; k" := (bind m (fun x => match x with pat => k end))
  (at level 61, pat pattern, m at next level, right associativity) : engine_scope.
Notation "m ;; k" := (bind m (fun _ => k))
  (at level 61, right associativity) : engine_scope.
Local Open Scope engine_scope.

(* ================================================================== *)
(** ** [_increase_risk] *)

Definition risk_order : list RiskTier := [VERY_LOW; LOW; MEDIUM; HIGH; VERY_HIGH].

(** The [try] block looks the tier up in [risk_order]; the [except
    ValueError] branch returns the tier as it came.  [new_index] never
    exceeds the last index, so the subscript cannot fail. *)
Definition _increase_risk (current_risk : RiskTier) (levels : nat) : RiskTier :=
  match index tier_eqb risk_order current_risk with
  | Some current_index =>
      let new_index := Nat.min (current_index + levels) (List.length risk_order - 1) in
      nth new_index risk_order current_risk
  | None => current_risk
  end.

(* ================================================================== *)
(** ** Predicates on the profile *)

(** [_check_ownership]: a non-empty list is truthy. *)
Definition truthy {A} (l : list A) : bool :=
  match l with
  | [] => false
  | _ :: _ => true
  end.

Definition _check_ownership (buyer_data : BuyerData) : bool :=
  if truthy (PRIMARY_RESIDENCE_TITLE_NAMES buyer_data) then true
  else if truthy (PURCHASER_ADDRESS_LIST_FROM_LANDREGISTRY buyer_data) then true
  else existsb (fun cosigner => truthy (CO_SIGNER_ADDRESS_LIST_FROM_LANDREGISTRY cosigner))
         (CO_SIGNER_LIST_FROM_APS buyer_data).

(** [_has_different_addresses] *)
Definition _has_different_addresses (buyer_data : BuyerData) : bool :=
  negb (PURCHASER_ADDRESS_FROM_ID buyer_data =? PURCHASER_ADDRESS_FROM_APS buyer_data).

(** [age and (age < 30 or age > 60)]: an age of 0 is falsy. *)
Definition age_risk (age : Z) : bool :=
  negb (age =? 0)%Z && ((age <? 30)%Z || (60 <? age)%Z).

Definition deposit_by_others (buyer_data : BuyerData) : bool :=
  let deposit_parties := OTHER_DEPOSIT_PAID_NAME_LIST_FROM_APS buyer_data in
  let purchaser_name := PURCHASER_NAME_FROM_APS buyer_data in
  negb (List.length deposit_parties =? 1)%nat || negb (contains purchaser_name deposit_parties).

Definition mortgage_parties (buyer_data : BuyerData) : bool :=
  let mortgage_names := MORTGAGE_APPROVAL_NAMES buyer_data in
  let purchaser_name := PURCHASER_NAME_FROM_APS buyer_data in
  (1 <? List.length mortgage_names)%nat || negb (contains purchaser_name mortgage_names).

(** [_has_high_risk_overrides] *)
Definition _has_high_risk_overrides (buyer_data : BuyerData) : bool :=
  if (75 <? DISTANCE buyer_data)%float then true
  else if deposit_by_others buyer_data then true
  else if mortgage_parties buyer_data then true
  else if age_risk (PURCHASER_AGE_FROM_ID buyer_data) then true
  else if _has_different_addresses buyer_data then true
  else false.

(** [_is_buyer_on_primary_residence_title] *)
Definition _is_buyer_on_primary_residence_title (buyer_data : BuyerData) : bool :=
  contains (PURCHASER_NAME_FROM_APS buyer_data) (PRIMARY_RESIDENCE_TITLE_NAMES buyer_data).

(** The purchaser's agreement name followed by the co-signers' agreement
    names. *)
Definition aps_names (buyer_data : BuyerData) : list string :=
  [PURCHASER_NAME_FROM_APS buyer_data]
    ++ map CO_SIGNER_NAME_FROM_APS (CO_SIGNER_LIST_FROM_APS buyer_data).

(** [s.split()[-1]] *)
Definition last_name (s : string) : result string := last_item (split s).

(** The generator handed to [any]: the names are visited in order, the
    visit stops at the first hit, and a title name without a token raises
    when it is reached. *)
Fixpoint any_related (purchaser_last_name : string) (known : list string)
    (owner_names : list string) : result bool :=
  match owner_names with
  | [] => Ok false
  | name :: rest =>
      result_bind (last_name name) (fun l =>
        if (l =? purchaser_last_name) && negb (contains name known) then Ok true
        else any_related purchaser_last_name known rest)
  end.

(** [_has_related_parties_not_on_aps] *)
Definition _has_related_parties_not_on_aps (buyer_data : BuyerData) : result bool :=
  result_bind (last_name (PURCHASER_NAME_FROM_APS buyer_data)) (fun purchaser_last_name =>
    let owner_names := PRIMARY_RESIDENCE_TITLE_NAMES buyer_data in
    any_related purchaser_last_name (aps_names buyer_data) owner_names).

(** [_is_missing_coowner_on_aps] *)
Definition _is_missing_coowner_on_aps (buyer_data : BuyerData) : bool :=
  let primary_owners := PRIMARY_RESIDENCE_TITLE_NAMES buyer_data in
  existsb (fun owner => negb (contains owner (aps_names buyer_data))) primary_owners.

(** [(part / price) * 100 if price > 0 else 0], the guarded percentage of
    both branch evaluators. *)
Definition guarded_pct (part price : float) : result float :=
  if (0 <? price)%float
  then result_bind (truediv part price) (fun q => Ok (q * 100)%float)
  else Ok 0%float.

(* ================================================================== *)
(** ** [_assess_non_homeowner] *)

(** The block under [# Price tier checks (Conditions 1-4)]. *)
Definition price_tier_checks (risk_level : RiskTier) (price deposit_pct : float) : RiskTier :=
  if (price <? 800000)%float then
    if (25 <? deposit_pct)%float then LOW
    else if (15 <? deposit_pct)%float then MEDIUM
    else risk_level
  else if (800000 <=? price)%float && (price <=? 1000000)%float then
    if (20 <? deposit_pct)%float then MEDIUM else risk_level
  else if (1000000 <? price)%float && (price <=? 1500000)%float then
    if (25 <? deposit_pct)%float then MEDIUM else risk_level
  else if (1500000 <? price)%float then
    if (25 <? deposit_pct)%float then MEDIUM else risk_level
  else risk_level.

Definition _assess_non_homeowner (buyer_data : BuyerData) : M (RiskTier * list string) :=
  let risk_level := NO_RISK in
  let actions : list string := [] in
  let price := PROPERTY_PRICE buyer_data in
  let deposit := PURCHASER_DEPOSIT_PAID_FROM_APS buyer_data in
  deposit_pct <- lift (guarded_pct deposit price) ;;
  let risk_level := price_tier_checks risk_level price deposit_pct in
  let risk_level := if _has_high_risk_overrides buyer_data then HIGH else risk_level in
  related <- lift (_has_related_parties_not_on_aps buyer_data) ;;
  let '(risk_level, actions) :=
    if related : bool then
      let risk_level := _increase_risk risk_level 1 in
      let risk_level :=
        if (1000000 <? price)%float then _increase_risk risk_level 2 else risk_level in
      (risk_level, actions ++ ["Add related parties to APS"])
    else (risk_level, actions) in
  let actions :=
    if (PURCHASER_AGE_FROM_ID buyer_data <? 30)%Z
       && negb (_is_buyer_on_primary_residence_title buyer_data)
    then actions ++ ["Request to add co-signers"]
    else actions in
  ret (risk_level, actions ++ ["Request 25% downpayment proof"]).

(* ================================================================== *)
(** ** [_assess_homeowner] *)

(** The block under [# Home value to price ratio]: each of its three arms
    assigns, so the tier it receives is dropped.  The literals are 0.75 and
    0.6 as binary64. *)
Definition home_value_ratio_check (risk_level : RiskTier) (price home_value : float)
    : RiskTier :=
  if (0.75 * price <=? home_value)%float then LOW
  else if (0x1.3333333333333p-1 * price <=? home_value)%float
          && (home_value <? 0.75 * price)%float then MEDIUM
  else HIGH.

(** The block under [# Equity checks]. *)
Definition equity_checks (equity_pct : float) (risk_level : RiskTier) : M RiskTier :=
  if (equity_pct <? 5)%float then
    REASONS_append "Very low equity (<5%)" ;; ret VERY_HIGH
  else if (equity_pct <? 15)%float then
    REASONS_append "Low equity (5-15%)" ;; ret (_increase_risk risk_level 2)
  else if (equity_pct <? 25)%float then
    REASONS_append "Moderate equity (15-25%)" ;; ret (_increase_risk risk_level 1)
  else ret risk_level.

(** The block under [# Related parties check]; the price test of the
    non-owner branch is commented out here. *)
Definition related_parties_check (related : bool) (risk_level : RiskTier)
    (actions : list string) : M (RiskTier * list string) :=
  if related then
    let risk_level := _increase_risk risk_level 1 in
    let risk_level := _increase_risk risk_level 2 in
    REASONS_append "Same last name different addresses." ;;
    ret (risk_level, actions ++ ["Add related parties to APS"])
  else ret (risk_level, actions).

(** The block under [# Missing co-owner check]. *)
Definition missing_coowner_check (buyer_data : BuyerData) (risk_level : RiskTier) : M RiskTier :=
  if _is_missing_coowner_on_aps buyer_data then
    REASONS_append "Missing co-owner on APS" ;; ret (_increase_risk risk_level 2)
  else ret risk_level.

Definition _assess_homeowner (buyer_data : BuyerData) : M (RiskTier * list string) :=
  let risk_level := MEDIUM in
  let actions : list string := [] in
  let price := PROPERTY_PRICE buyer_data in
  let home_value := PRIMARY_RESIDENCE_VALUE_FROM_AVM buyer_data in
  let equity := PRIMARY_RESIDENCE_EQUITY buyer_data in
  equity_pct <- lift (guarded_pct equity price) ;;
  let risk_level := home_value_ratio_check risk_level price home_value in
  risk_level <- equity_checks equity_pct risk_level ;;
  related <- lift (_has_related_parties_not_on_aps buyer_data) ;;
  '(risk_level, actions) <- related_parties_check related risk_level actions ;;
  risk_level <- missing_coowner_check buyer_data risk_level ;;
  ret (risk_level, actions ++ ["Verify property ownership and equity"]).

(* ================================================================== *)
(** ** [_apply_general_checks] *)

(** [a != b] for a [str] and an [Optional[str]]. *)
Definition differs (a : string) (b : option string) : bool :=
  match b with
  | Some s => negb (a =? s)
  | None => true
  end.

(** A check that sets the tier to [VERY_HIGH]. *)
Definition force (cond : bool) (reason : string) (risk_level : RiskTier) : M RiskTier :=
  if cond then REASONS_append reason ;; ret VERY_HIGH else ret risk_level.

(** A check that raises the tier by one step. *)
Definition bump (cond : bool) (reason : string) (risk_level : RiskTier) : M RiskTier :=
  if cond then REASONS_append reason ;; ret (_increase_risk risk_level 1) else ret risk_level.

Definition name_id_aps_check (buyer_data : BuyerData) : RiskTier -> M RiskTier :=
  force (negb (PURCHASER_NAME_FROM_APS buyer_data =? PURCHASER_NAME_FROM_ID buyer_data))
        "Name mismatch between ID and APS".

Definition name_aps_housesigma_check (buyer_data : BuyerData) : RiskTier -> M RiskTier :=
  force (differs (PURCHASER_NAME_FROM_APS buyer_data) (PURCHASER_NAME_FROM_HOUSESIGMA buyer_data))
        "Name mismatch between APS and HOUSESIGMA".

Definition name_id_housesigma_check (buyer_data : BuyerData) : RiskTier -> M RiskTier :=
  force (differs (PURCHASER_NAME_FROM_ID buyer_data) (PURCHASER_NAME_FROM_HOUSESIGMA buyer_data))
        "Name mismatch between ID and HOUSESIGMA".

Definition address_id_aps_check (buyer_data : BuyerData) : RiskTier -> M RiskTier :=
  force (negb (PURCHASER_ADDRESS_FROM_ID buyer_data =? PURCHASER_ADDRESS_FROM_APS buyer_data))
        "Address mismatch between ID and APS".

Definition address_landregistry_check (buyer_data : BuyerData) : RiskTier -> M RiskTier :=
  force (negb (contains (PURCHASER_ADDRESS_FROM_APS buyer_data)
                 (PURCHASER_ADDRESS_LIST_FROM_LANDREGISTRY buyer_data)))
        (if truthy (PURCHASER_ADDRESS_LIST_FROM_LANDREGISTRY buyer_data)
         then "Address mismatch APS and LAND REGISTRY"
         else "Address in APS not found in LAND REGISTRY - empty").

Definition distance_check (buyer_data : BuyerData) : RiskTier -> M RiskTier :=
  bump (75 <? DISTANCE buyer_data)%float "Long distance (>75km)".

Definition deposit_check (buyer_data : BuyerData) : RiskTier -> M RiskTier :=
  force (deposit_by_others buyer_data) "Deposit paid by others".

Definition mortgage_check (buyer_data : BuyerData) : RiskTier -> M RiskTier :=
  bump (mortgage_parties buyer_data) "Multiple mortgage parties".

Definition age_check (buyer_data : BuyerData) : RiskTier -> M RiskTier :=
  let age := PURCHASER_AGE_FROM_ID buyer_data in
  bump (age_risk age) ("Age risk (" ++ str_of_int age ++ " years)").

Definition multiple_properties_check (buyer_data : BuyerData) : RiskTier -> M RiskTier :=
  bump (1 <? List.length (PURCHASER_ALL_PROPERTIES_VALUE_FROM_AVM buyer_data))%nat
       "Multiple property ownership".

(** The checks that precede the age check, in the order of the source. *)
Definition checks_before_age (buyer_data : BuyerData) (current_risk : RiskTier) : M RiskTier :=
  let risk_level := current_risk in
  risk_level <- name_id_aps_check buyer_data risk_level ;;
  risk_level <- name_aps_housesigma_check buyer_data risk_level ;;
  risk_level <- name_id_housesigma_check buyer_data risk_level ;;
  risk_level <- address_id_aps_check buyer_data risk_level ;;
  risk_level <- address_landregistry_check buyer_data risk_level ;;
  risk_level <- distance_check buyer_data risk_level ;;
  risk_level <- deposit_check buyer_data risk_level ;;
  mortgage_check buyer_data risk_level.

(** [actions] is received and never used. *)
Definition _apply_general_checks (buyer_data : BuyerData) (current_risk : RiskTier)
    (actions : list string) : M RiskTier :=
  risk_level <- checks_before_age buyer_data current_risk ;;
  risk_level <- age_check buyer_data risk_level ;;
  risk_level <- multiple_properties_check buyer_data risk_level ;;
  ret risk_level.

(* ================================================================== *)
(** ** [_get_risk_factors] *)

(** [home_value/price], line 402: no test on [price] precedes it. *)
Definition home_value_to_price (buyer_data : BuyerData) : result float :=
  truediv (PRIMARY_RESIDENCE_VALUE_FROM_AVM buyer_data) (PROPERTY_PRICE buyer_data).

(** [deposit / price * 100], line 405: no test on [price] either. *)
Definition reporter_deposit_pct (buyer_data : BuyerData) : result float :=
  result_bind (truediv (PURCHASER_DEPOSIT_PAID_FROM_APS buyer_data) (PROPERTY_PRICE buyer_data))
    (fun q => Ok (q * 100)%float).

Definition _get_risk_factors (buyer_data : BuyerData) : result (list RiskFactor) :=
  let factors :=
    if negb (_check_ownership buyer_data) then [First_time_homebuyer]
    else [Existing_property_owner] in
  result_bind (home_value_to_price buyer_data) (fun ratio =>
  let factors := factors ++ [Home_value_to_price_ratio ratio] in
  result_bind (reporter_deposit_pct buyer_data) (fun deposit_pct =>
  let factors := factors ++ [Deposit deposit_pct] in
  let factors :=
    if (75 <? DISTANCE buyer_data)%float
    then factors ++ [Long_distance (DISTANCE buyer_data)] else factors in
  let age := PURCHASER_AGE_FROM_ID buyer_data in
  let factors := if age_risk age then factors ++ [Age_risk_factor age] else factors in
  Ok factors)).

(* ================================================================== *)
(** ** [assess_buyer_risk] *)

Definition assess_buyer_risk (buyer_data : BuyerData) : M Verdict :=
  REASONS_reset ;;
  let owns_home := _check_ownership buyer_data in
  '(risk_level, actions) <-
     (if negb owns_home then _assess_non_homeowner buyer_data
      else _assess_homeowner buyer_data) ;;
  risk_level <- _apply_general_checks buyer_data risk_level actions ;;
  risk_factors <- lift (_get_risk_factors buyer_data) ;;
  reasons <- REASONS_get ;;
  ret (mkVerdict risk_level actions risk_factors reasons).

(* ================================================================== *)
(** ** Pure readings of the monadic blocks

    What each block computes, as plain functions: the tier it returns and
    the reasons it appends.  The lemmas of the second half relate each
    block to its reading. *)

(** The value of [guarded_pct]. *)
Definition pct (part price : float) : float :=
  if (0 <? price)%float then (part / price * 100)%float else 0%float.

Definition forced (cond : bool) (t : RiskTier) : RiskTier :=
  if cond then VERY_HIGH else t.

Definition bumped (cond : bool) (t : RiskTier) : RiskTier :=
  if cond then _increase_risk t 1 else t.

Definition said (cond : bool) (reason : string) : list string :=
  if cond then [reason] else [].

Definition append_all (self : BuyerRiskAssessor) (rs : list string) : BuyerRiskAssessor :=
  mkAssessor (REASONS self ++ rs).

Definition equity_tier (equity_pct : float) (t : RiskTier) : RiskTier :=
  if (equity_pct <? 5)%float then VERY_HIGH
  else if (equity_pct <? 15)%float then _increase_risk t 2
  else if (equity_pct <? 25)%float then _increase_risk t 1
  else t.

Definition equity_reasons (equity_pct : float) : list string :=
  if (equity_pct <? 5)%float then ["Very low equity (<5%)"]
  else if (equity_pct <? 15)%float then ["Low equity (5-15%)"]
  else if (equity_pct <? 25)%float then ["Moderate equity (15-25%)"]
  else [].

Definition age_reason (age : Z) : string :=
  "Age risk (" ++ str_of_int age ++ " years)".

Definition landregistry_reason (buyer_data : BuyerData) : string :=
  if truthy (PURCHASER_ADDRESS_LIST_FROM_LANDREGISTRY buyer_data)
  then "Address mismatch APS and LAND REGISTRY"
  else "Address in APS not found in LAND REGISTRY - empty".

Section GeneralReading.
Variable p : BuyerData.

Definition c_name_id_aps : bool :=
  negb (PURCHASER_NAME_FROM_APS p =? PURCHASER_NAME_FROM_ID p).
Definition c_name_aps_hs : bool :=
  differs (PURCHASER_NAME_FROM_APS p) (PURCHASER_NAME_FROM_HOUSESIGMA p).
Definition c_name_id_hs : bool :=
  differs (PURCHASER_NAME_FROM_ID p) (PURCHASER_NAME_FROM_HOUSESIGMA p).
Definition c_address_id_aps : bool :=
  negb (PURCHASER_ADDRESS_FROM_ID p =? PURCHASER_ADDRESS_FROM_APS p).
Definition c_address_registry : bool :=
  negb (contains (PURCHASER_ADDRESS_FROM_APS p) (PURCHASER_ADDRESS_LIST_FROM_LANDREGISTRY p)).
Definition c_distance : bool := (75 <? DISTANCE p)%float.
Definition c_multiple : bool :=
  (1 <? List.length (PURCHASER_ALL_PROPERTIES_VALUE_FROM_AVM p))%nat.

(** Tier and reasons after the eight checks that precede the age check. *)
Definition before_age_tier (t : RiskTier) : RiskTier :=
  bumped (mortgage_parties p)
    (forced (deposit_by_others p)
      (bumped c_distance
        (forced c_address_registry
          (forced c_address_id_aps
            (forced c_name_id_hs
              (forced c_name_aps_hs
                (forced c_name_id_aps t))))))).

Definition before_age_reasons : list string :=
  said c_name_id_aps "Name mismatch between ID and APS"
  ++ said c_name_aps_hs "Name mismatch between APS and HOUSESIGMA"
  ++ said c_name_id_hs "Name mismatch between ID and HOUSESIGMA"
  ++ said c_address_id_aps "Address mismatch between ID and APS"
  ++ said c_address_registry (landregistry_reason p)
  ++ said c_distance "Long distance (>75km)"
  ++ said (deposit_by_others p) "Deposit paid by others"
  ++ said (mortgage_parties p) "Multiple mortgage parties".

(** Tier and reasons after the whole pass. *)
Definition general_tier (t : RiskTier) : RiskTier :=
  bumped c_multiple
    (bumped (age_risk (PURCHASER_AGE_FROM_ID p)) (before_age_tier t)).

Definition general_reasons : list string :=
  before_age_reasons
  ++ said (age_risk (PURCHASER_AGE_FROM_ID p)) (age_reason (PURCHASER_AGE_FROM_ID p))
  ++ said c_multiple "Multiple property ownership".
End GeneralReading.

(* ================================================================== *)
(** ** The specification's tables, in the specification's words *)

(** Order of the escalation ladder: both tiers are on the ladder and the
    first does not come after the second. *)
Definition ladder_le (a b : RiskTier) : Prop :=
  match index tier_eqb risk_order a, index tier_eqb risk_order b with
  | Some i, Some j => i <= j
  | _, _ => False
  end.

(** The price/deposit table of the non-owner branch, row by row. *)
Definition spec_price_deposit_table (price depositPct : float) : RiskTier :=
  if (price <? 800000)%float && (25 <? depositPct)%float then LOW
  else if (price <? 800000)%float && (15 <? depositPct)%float && (depositPct <=? 25)%float
  then MEDIUM
  else if (800000 <=? price)%float && (price <=? 1000000)%float && (20 <? depositPct)%float
  then MEDIUM
  else if (((1000000 <? price)%float && (price <=? 1500000)%float) || (1500000 <? price)%float)
          && (25 <? depositPct)%float
  then MEDIUM
  else NO_RISK.

(* ================================================================== *)
(** ** Sample profiles *)

Definition main_st : string := "123 Main St, Toronto, ON".

(** A buyer for whom no general check fires; the remaining fields are
    arguments. *)
Definition sample (name : string) (age : Z) (registry titles : list string)
    (deposit home_value equity price : float) : BuyerData :=
  mkBuyerData name name (Some name) main_st main_st registry age
    [] [] [] [] deposit "2023-01-01" "Ontario" [] 50%float
    0%float home_value 0%float equity titles price [name] true [name].

(** No title, no registry address, no co-signer: the non-owner branch. *)
Definition first_time_buyer (deposit price : float) : BuyerData :=
  sample "John Smith" 40 [] [] deposit 0%float 0%float price.

(** The buyer is the one name on the title of the primary residence. *)
Definition owner (home_value equity price : float) : BuyerData :=
  sample "John Smith" 40 [main_st] ["John Smith"] 200000%float home_value equity price.

(** As [owner], with an age of 0. *)
Definition owner_aged_0 : BuyerData :=
  sample "John Smith" 0 [main_st] ["John Smith"] 200000%float 750000%float 450000%float
    800000%float.

(** As [owner], with a relative on the title who is not on the agreement. *)
Definition owner_with_relative : BuyerData :=
  sample "John Smith" 40 [main_st] ["John Smith"; "Jane Smith"] 200000%float
    750000%float 450000%float 800000%float.

(** The listing-service name left at its default. *)
Definition no_listing_name : BuyerData :=
  mkBuyerData "John Smith" "John Smith" HOUSESIGMA_default main_st main_st [main_st] 40
    [] [] [] [] 200000%float "2023-01-01" "Ontario" [] 50%float
    0%float 750000%float 0%float 450000%float ["John Smith"] 800000%float
    ["John Smith"] true ["John Smith"].

(** An empty agreement name. *)
Definition nameless : BuyerData :=
  sample "" 40 [] [] 200000%float 0%float 0%float 700000%float.

(** The ID carries another name than the agreement. *)
Definition other_name_on_id : BuyerData :=
  mkBuyerData "John Smith" "Jon Smith" (Some "John Smith") main_st main_st [main_st] 40
    [] [] [] [] 200000%float "2023-01-01" "Ontario" [] 50%float
    0%float 750000%float 0%float 450000%float ["John Smith"] 800000%float
    ["John Smith"] true ["John Smith"].

(* ================================================================== *)
(** ** [_has_multiple_buyers_different_addresses]

    No method of the engine calls this one. *)

(** A non-empty string is truthy. *)
Definition nonempty (s : string) : bool := negb (s =? "").

(** [if a: addresses.add(a)] on a [set] of strings. *)
Definition add_address (addresses : set string) (a : string) : set string :=
  if nonempty a then set_add string_dec a addresses else addresses.

Definition _has_multiple_buyers_different_addresses (buyer_data : BuyerData) : bool :=
  if (List.length (aps_names buyer_data) <=? 1)%nat then false
  else
    let addresses := empty_set string in
    let addresses := add_address addresses (PURCHASER_ADDRESS_FROM_ID buyer_data) in
    let addresses := add_address addresses (PURCHASER_ADDRESS_FROM_APS buyer_data) in
    let addresses :=
      fold_left (fun acc cosigner => add_address acc (CO_SIGNER_ADDRESS_FROM_APS cosigner))
        (CO_SIGNER_LIST_FROM_APS buyer_data) addresses in
    (1 <? List.length addresses)%nat.

(* ================================================================== *)
(** ** Further vocabulary for the properties *)




(** The tiers the owner branch can produce. *)
Definition owner_tier_range (t : RiskTier) : Prop :=
  t = LOW \/ t = MEDIUM \/ t = HIGH \/ t = VERY_HIGH.

(** The addresses [_has_multiple_buyers_different_addresses] looks at, in
    the order it visits them. *)
Definition buyer_addresses (buyer_data : BuyerData) : list string :=
  [PURCHASER_ADDRESS_FROM_ID buyer_data; PURCHASER_ADDRESS_FROM_APS buyer_data]
  ++ map CO_SIGNER_ADDRESS_FROM_APS (CO_SIGNER_LIST_FROM_APS buyer_data).

(** A co-signer with a name and an agreement address and nothing else. *)
Definition cosigner_at (name address : string) : CoSigner :=
  mkCoSigner name name address [] [] [] [] [].

(** [sample] with co-signers. *)
Definition sample_with (cosigners : list CoSigner) (p : BuyerData) : BuyerData :=
  mkBuyerData (PURCHASER_NAME_FROM_APS p) (PURCHASER_NAME_FROM_ID p)
    (PURCHASER_NAME_FROM_HOUSESIGMA p) (PURCHASER_ADDRESS_FROM_APS p)
    (PURCHASER_ADDRESS_FROM_ID p) (PURCHASER_ADDRESS_LIST_FROM_LANDREGISTRY p)
    (PURCHASER_AGE_FROM_ID p)
    (PURCHASER_ALL_PROPERTIES_PURCHASE_PRICE_FROM_LANDREGISTRY p)
    (PURCHASER_ALL_PROPERTIES_VALUE_FROM_AVM p)
    (PURCHASER_ALL_PROPERTIES_TOTAL_DEBT_FROM_PURVIEW p)
    (PURCHASER_ALL_PROPERTIES_EQUITY p) (PURCHASER_DEPOSIT_PAID_FROM_APS p)
    (PURCHASER_ID_ISSUE_DATE p) (PURCHASER_DRIVER_LICENSE_TYPE p)
    cosigners (DISTANCE p)
    (PRIMARY_RESIDENCE_PURCHASE_PRICE_FROM_LANDREGISTRY p)
    (PRIMARY_RESIDENCE_VALUE_FROM_AVM p) (PRIMARY_RESIDENCE_TOTAL_DEBT_FROM_PURVIEW p)
    (PRIMARY_RESIDENCE_EQUITY p) (PRIMARY_RESIDENCE_TITLE_NAMES p) (PROPERTY_PRICE p)
    (OTHER_DEPOSIT_PAID_NAME_LIST_FROM_APS p) (MORTGAGE_APPROVAL p)
    (MORTGAGE_APPROVAL_NAMES p).

(* ================================================================== *)
(** * Properties *)

(* ================================================================== *)
(** ** Order facts on binary64 values *)

Lemma SFcompare_antisym (x y : spec_float) :
  SFcompare y x = option_map CompOpp (SFcompare x y).
Proof.
  destruct x as [sx|sx| |sx mx ex], y as [sy|sy| |sy my ey]; simpl;
    try reflexivity;
    try (destruct sx; reflexivity); try (destruct sy; reflexivity);
    try (destruct sx, sy; reflexivity).
  destruct sx, sy; simpl; try reflexivity;
    rewrite (Z.compare_antisym ex ey); destruct (ex ?= ey)%Z; simpl; try reflexivity;
    rewrite (Pos.compare_cont_antisym mx my Eq); simpl;
    try rewrite CompOpp_involutive; reflexivity.
Qed.

Lemma leb_not_ltb (x y : float) : (x <=? y)%float = true -> (y <? x)%float = false.
Proof.
  rewrite leb_spec, ltb_spec. unfold SFleb, SFltb.
  rewrite (SFcompare_antisym (Prim2SF x) (Prim2SF y)).
  destruct (SFcompare (Prim2SF x) (Prim2SF y)) as [[]|]; simpl; congruence.
Qed.

Lemma ltb_not_leb (x y : float) : (x <? y)%float = true -> (y <=? x)%float = false.
Proof.
  rewrite leb_spec, ltb_spec. unfold SFleb, SFltb.
  rewrite (SFcompare_antisym (Prim2SF x) (Prim2SF y)).
  destruct (SFcompare (Prim2SF x) (Prim2SF y)) as [[]|]; simpl; congruence.
Qed.

Lemma SFcompare_finite (s1 s2 : bool) (m1 m2 : positive) (e1 e2 : Z) :
  SFcompare (S754_finite s1 m1 e1) (S754_finite s2 m2 e2) =
  Some match s1, s2 with
       | true, false => Lt
       | false, true => Gt
       | false, false =>
           match (e1 ?= e2)%Z with
           | Lt => Lt
           | Gt => Gt
           | Eq => (m1 ?= m2)%positive
           end
       | true, true =>
           match (e1 ?= e2)%Z with
           | Lt => Gt
           | Gt => Lt
           | Eq => CompOpp (m1 ?= m2)%positive
           end
       end.
Proof. reflexivity. Qed.

(** Comparisons of one float [x] against literals: the literals are
    evaluated, and the cases of [x] are settled by linear arithmetic on
    exponent and mantissa. *)
Ltac float_order x :=
  rewrite ?leb_spec, ?ltb_spec, ?FloatAxioms.eqb_spec;
  repeat match goal with
  | |- context [Prim2SF ?c] =>
      tryif is_var c then fail else
        (let v := eval vm_compute in (Prim2SF c) in
         let E := fresh in
         assert (E : Prim2SF c = v) by (vm_compute; reflexivity);
         rewrite E; clear E)
  end;
  destruct (Prim2SF x) as [[]|[]| |[] ?m ?e];
  unfold SFleb, SFltb, SFeqb;
  rewrite ?SFcompare_finite;
  cbv [SFcompare CompOpp];
  repeat match goal with
  | |- context [(?a ?= ?b)%Z] => destruct (Z.compare_spec a b)
  | |- context [(?a ?= ?b)%positive] => destruct (Pos.compare_spec a b)
  end;
  intros; subst;
  repeat match goal with
  | H : (_ < _)%positive |- _ => apply Pos2Z.pos_lt_pos in H
  end;
  first [reflexivity | discriminate | exfalso; lia].

Lemma positive_not_zero (x : float) : (0 <? x)%float = true -> (x =? 0)%float = false.
Proof. float_order x. Qed.

Lemma zero_not_positive (x : float) : (x =? 0)%float = true -> (0 <? x)%float = false.
Proof. float_order x. Qed.

Lemma below_800k (x : float) :
  (x <? 800000)%float = true ->
  (1000000 <? x)%float = false /\ (1500000 <? x)%float = false.
Proof. split; revert H; float_order x. Qed.

Lemma upto_1M (x : float) :
  (x <=? 1000000)%float = true -> (1500000 <? x)%float = false.
Proof. float_order x. Qed.

Lemma between_15_and_25 (x : float) :
  (15 <? x)%float = true -> (25 <? x)%float = false -> (x <=? 25)%float = true.
Proof. float_order x. Qed.



(** A guarded percentage never raises, and its value is [pct]. *)
Lemma guarded_pct_ok (part price : float) :
  guarded_pct part price = Ok (pct part price).
Proof.
  unfold guarded_pct, pct, truediv.
  destruct (0 <? price)%float eqn:Hpos; [|reflexivity].
  rewrite (positive_not_zero _ Hpos). reflexivity.
Qed.

(* ================================================================== *)
(** ** The escalation ladder *)

Lemma tier_label_inj (a b : RiskTier) : tier_label a = tier_label b -> a = b.
Proof. destruct a, b; simpl; intros H; first [reflexivity | discriminate H]. Qed.

Lemma tier_eqb_eq (a b : RiskTier) : tier_eqb a b = true <-> a = b.
Proof.
  unfold tier_eqb. rewrite String.eqb_eq. split.
  - apply tier_label_inj.
  - intros ->. reflexivity.
Qed.

(** [NO_RISK] is the one tier that [risk_order.index] does not find. *)
Lemma off_ladder (t : RiskTier) :
  index tier_eqb risk_order t = None <-> t = NO_RISK.
Proof. destruct t; vm_compute; split; intros H; first [reflexivity | discriminate H]. Qed.

Lemma increase_risk_on_ladder (t : RiskTier) (i n : nat) :
  index tier_eqb risk_order t = Some i ->
  index tier_eqb risk_order (_increase_risk t n) = Some (Nat.min (i + n) 4).
Proof.
  unfold _increase_risk. intros H. rewrite H.
  assert (Hi : i <= 4) by (destruct t; vm_compute in H; inversion H; lia).
  change (List.length risk_order - 1) with 4.
  assert (Hk : Nat.min (i + n) 4 <= 4) by lia.
  revert Hk. generalize (Nat.min (i + n) 4). intros k Hk.
  destruct k as [|[|[|[|[|k]]]]]; try lia; reflexivity.
Qed.

Lemma increase_risk_VERY_HIGH (n : nat) : _increase_risk VERY_HIGH n = VERY_HIGH.
Proof.
  pose proof (increase_risk_on_ladder VERY_HIGH 4 n eq_refl) as H.
  replace (Nat.min (4 + n) 4) with 4 in H by lia.
  destruct (_increase_risk VERY_HIGH n); vm_compute in H;
    first [reflexivity | discriminate H].
Qed.

Lemma increase_risk_NO_RISK (n : nat) : _increase_risk NO_RISK n = NO_RISK.
Proof. reflexivity. Qed.

(** Two escalations in a row are one escalation by the sum. *)
Lemma increase_risk_twice (t : RiskTier) (n m : nat) :
  _increase_risk (_increase_risk t n) m = _increase_risk t (n + m).
Proof.
  destruct (index tier_eqb risk_order t) as [i|] eqn:Hi.
  - pose proof (increase_risk_on_ladder t i n Hi) as H1.
    pose proof (increase_risk_on_ladder _ _ m H1) as H2.
    pose proof (increase_risk_on_ladder t i (n + m) Hi) as H3.
    replace (Nat.min (Nat.min (i + n) 4 + m) 4) with (Nat.min (i + (n + m)) 4) in H2 by lia.
    rewrite <- H3 in H2.
    destruct (_increase_risk (_increase_risk t n) m), (_increase_risk t (n + m));
      vm_compute in H2; first [reflexivity | discriminate H2].
  - apply off_ladder in Hi. subst t. reflexivity.
Qed.

(** C1.  On the ladder [VERY_LOW, LOW, MEDIUM, HIGH, VERY_HIGH], a tier of
    index [i] escalated by [n] steps is the tier at index [min (i+n) 4]:
    the result is never below the tier it started from, it grows with the
    number of steps and with the starting tier, and it is [VERY_HIGH] as
    soon as [i+n] reaches the last index.  [NO_RISK], which is not on the
    ladder, is returned unchanged for every [n]. *)
Theorem escalate_ladder (t : RiskTier) (n : nat) :
  (forall i, index tier_eqb risk_order t = Some i ->
     nth_error risk_order (Nat.min (i + n) 4) = Some (_increase_risk t n)
     /\ index tier_eqb risk_order (_increase_risk t n) = Some (Nat.min (i + n) 4)
     /\ ladder_le t (_increase_risk t n)
     /\ (forall m, n <= m -> ladder_le (_increase_risk t n) (_increase_risk t m))
     /\ (forall t', ladder_le t t' -> ladder_le (_increase_risk t n) (_increase_risk t' n))
     /\ (4 <= i + n -> _increase_risk t n = VERY_HIGH)
     /\ ladder_le (_increase_risk t n) VERY_HIGH)
  /\ (In t risk_order <-> exists i, index tier_eqb risk_order t = Some i)
  /\ (~ In t risk_order -> t = NO_RISK /\ _increase_risk t n = NO_RISK).
Proof.
  split; [|split].
  - intros i Hi.
    pose proof (increase_risk_on_ladder t i n Hi) as Hn.
    assert (Hnth : forall u k, index tier_eqb risk_order u = Some k ->
                               nth_error risk_order k = Some u).
    { intros u k Hu. destruct u; vm_compute in Hu; inversion Hu; reflexivity. }
    assert (Hi4 : i <= 4) by (destruct t; vm_compute in Hi; inversion Hi; lia).
    repeat split.
    + apply Hnth, Hn.
    + exact Hn.
    + unfold ladder_le. rewrite Hi, Hn. lia.
    + intros m Hm. unfold ladder_le.
      rewrite Hn, (increase_risk_on_ladder t i m Hi). lia.
    + intros t' Ht'. unfold ladder_le in Ht'. rewrite Hi in Ht'.
      destruct (index tier_eqb risk_order t') as [j|] eqn:Hj; [|contradiction].
      unfold ladder_le. rewrite Hn, (increase_risk_on_ladder t' j n Hj). lia.
    + intros Hsat. replace (Nat.min (i + n) 4) with 4 in Hn by lia.
      destruct (_increase_risk t n); vm_compute in Hn;
        first [reflexivity | discriminate Hn].
    + unfold ladder_le. rewrite Hn.
      change (index tier_eqb risk_order VERY_HIGH) with (Some 4).
      apply Nat.le_min_r.
  - destruct t; simpl; split; intros H;
      try (vm_compute; eexists; reflexivity);
      try (destruct H as [i H]; vm_compute in H; discriminate H);
      try (intuition discriminate); intuition.
  - intros Hnot. assert (t = NO_RISK) as ->.
    { destruct t; try reflexivity; exfalso; apply Hnot; simpl; intuition. }
    split; reflexivity.
Qed.

Lemma escalate_ladder_witness :
  index tier_eqb risk_order LOW = Some 1
  /\ nth_error risk_order (Nat.min (1 + 2) 4) = Some (_increase_risk LOW 2)
  /\ _increase_risk LOW 2 = HIGH
  /\ _increase_risk HIGH 2 = VERY_HIGH.
Proof.
  split; [reflexivity|].
  split; [exact (proj1 (proj1 (escalate_ladder LOW 2) 1 eq_refl))|].
  split; reflexivity.
Defined.

(* ================================================================== *)
(** ** Running the monadic blocks *)

Lemma append_all_nil (s : BuyerRiskAssessor) : append_all s [] = s.
Proof. destruct s as [rs]. unfold append_all. simpl. rewrite app_nil_r. reflexivity. Qed.

Lemma append_all_app (s : BuyerRiskAssessor) (a b : list string) :
  append_all (append_all s a) b = append_all s (a ++ b).
Proof. unfold append_all. simpl. rewrite app_assoc. reflexivity. Qed.

Lemma bind_run {A B} (m : M A) (k : A -> M B) (s s' : BuyerRiskAssessor) (a : A) :
  m s = (Ok a, s') -> bind m k s = k a s'.
Proof. unfold bind. intros ->. reflexivity. Qed.

Lemma bind_raise {A B} (m : M A) (k : A -> M B) (s s' : BuyerRiskAssessor) (e : exn) :
  m s = (Raise e, s') -> bind m k s = (Raise e, s').
Proof. unfold bind. intros ->. reflexivity. Qed.

Lemma bind_lift_Ok {A B} (a : A) (k : A -> M B) (s : BuyerRiskAssessor) :
  bind (lift (Ok a)) k s = k a s.
Proof. reflexivity. Qed.

Lemma bind_lift_Raise {A B} (e : exn) (k : A -> M B) (s : BuyerRiskAssessor) :
  bind (lift (Raise e)) k s = (Raise e, s).
Proof. reflexivity. Qed.

Lemma force_run (c : bool) (r : string) (t : RiskTier) (s : BuyerRiskAssessor) :
  force c r t s = (Ok (forced c t), append_all s (said c r)).
Proof.
  unfold force, forced, said. destruct c.
  - reflexivity.
  - rewrite append_all_nil. reflexivity.
Qed.

Lemma bump_run (c : bool) (r : string) (t : RiskTier) (s : BuyerRiskAssessor) :
  bump c r t s = (Ok (bumped c t), append_all s (said c r)).
Proof.
  unfold bump, bumped, said. destruct c.
  - reflexivity.
  - rewrite append_all_nil. reflexivity.
Qed.

Ltac run_checks :=
  repeat first
    [ erewrite bind_run by apply force_run
    | erewrite bind_run by apply bump_run ].

Lemma checks_before_age_run (p : BuyerData) (t : RiskTier) (s : BuyerRiskAssessor) :
  checks_before_age p t s
  = (Ok (before_age_tier p t), append_all s (before_age_reasons p)).
Proof.
  unfold checks_before_age, name_id_aps_check, name_aps_housesigma_check,
    name_id_housesigma_check, address_id_aps_check, address_landregistry_check,
    distance_check, deposit_check, mortgage_check.
  run_checks. rewrite bump_run.
  rewrite !append_all_app. reflexivity.
Qed.

(** The general rule pass never raises: it returns [general_tier] and
    appends [general_reasons]. *)
Lemma apply_general_checks_run (p : BuyerData) (t : RiskTier) (actions : list string)
    (s : BuyerRiskAssessor) :
  _apply_general_checks p t actions s
  = (Ok (general_tier p t), append_all s (general_reasons p)).
Proof.
  unfold _apply_general_checks, age_check, multiple_properties_check.
  erewrite bind_run by apply checks_before_age_run.
  run_checks. unfold ret.
  rewrite !append_all_app. reflexivity.
Qed.

Lemma forced_VERY_HIGH (c : bool) : forced c VERY_HIGH = VERY_HIGH.
Proof. destruct c; reflexivity. Qed.

Lemma bumped_VERY_HIGH (c : bool) : bumped c VERY_HIGH = VERY_HIGH.
Proof. destruct c; reflexivity. Qed.

Lemma forced_true (t : RiskTier) : forced true t = VERY_HIGH.
Proof. reflexivity. Qed.

(** Once a check has forced [VERY_HIGH], the rest of the pass keeps it. *)
Ltac stays_very_high :=
  repeat first [rewrite forced_true | rewrite forced_VERY_HIGH | rewrite bumped_VERY_HIGH];
  reflexivity.

Lemma differs_true (a : string) (b : option string) : differs a b = true <-> Some a <> b.
Proof.
  unfold differs. destruct b as [s|].
  - rewrite negb_true_iff, String.eqb_neq. split; intros H; congruence.
  - split; [discriminate | reflexivity].
Qed.

Lemma contains_In (x : string) (l : list string) : contains x l = true <-> In x l.
Proof.
  unfold contains. rewrite existsb_exists. split.
  - intros [y [Hy Heq]]. apply String.eqb_eq in Heq. subst. exact Hy.
  - intros H. exists x. split; [exact H | apply String.eqb_refl].
Qed.

Lemma not_contains_In (x : string) (l : list string) :
  negb (contains x l) = true <-> ~ In x l.
Proof.
  rewrite negb_true_iff, <- contains_In. destruct (contains x l); split; congruence.
Qed.

(* ================================================================== *)
(** ** The whole assessment *)

(** The branch evaluator [assess_buyer_risk] selects. *)
Lemma assess_buyer_risk_unfold (p : BuyerData) (s : BuyerRiskAssessor) :
  assess_buyer_risk p s =
  match (if negb (_check_ownership p) then _assess_non_homeowner p
         else _assess_homeowner p) (mkAssessor []) with
  | (Ok (t, actions), s1) =>
      match _get_risk_factors p with
      | Ok factors =>
          (Ok (mkVerdict (general_tier p t) actions factors
                 (REASONS s1 ++ general_reasons p)),
           append_all s1 (general_reasons p))
      | Raise e => (Raise e, append_all s1 (general_reasons p))
      end
  | (Raise e, s1) => (Raise e, s1)
  end.
Proof.
  unfold assess_buyer_risk.
  unfold bind at 1. unfold REASONS_reset.
  unfold bind at 1.
  destruct ((if negb (_check_ownership p) then _assess_non_homeowner p
             else _assess_homeowner p) (mkAssessor [])) as [[[t actions]|e] s1];
    [|reflexivity].
  erewrite bind_run by apply apply_general_checks_run.
  unfold bind, lift, REASONS_get, ret.
  destruct (_get_risk_factors p); reflexivity.
Qed.

(** A verdict, when there is one, carries the tier of the general pass. *)
Lemma verdict_tier (p : BuyerData) (s : BuyerRiskAssessor) (v : Verdict) :
  fst (assess_buyer_risk p s) = Ok v ->
  exists t, risk_level v = general_tier p t.
Proof.
  rewrite assess_buyer_risk_unfold.
  destruct ((if negb (_check_ownership p) then _assess_non_homeowner p
             else _assess_homeowner p) (mkAssessor [])) as [[[t actions]|e] s1];
    [|discriminate].
  destruct (_get_risk_factors p); [|discriminate].
  simpl. intros H. inversion H. exists t. reflexivity.
Qed.

Lemma mismatch_general_tier (p : BuyerData) (t : RiskTier) :
  c_name_id_aps p = true \/ c_name_aps_hs p = true \/ c_name_id_hs p = true
  \/ c_address_id_aps p = true \/ c_address_registry p = true ->
  general_tier p t = VERY_HIGH.
Proof.
  unfold general_tier, before_age_tier.
  intros [H|[H|[H|[H|H]]]]; rewrite H; stays_very_high.
Qed.

(** C2.  When one of the five mismatch conditions holds, the general rule
    pass returns [VERY_HIGH] whatever tier the branch handed over and
    whichever later rules fire, and so does every verdict. *)
Theorem mismatch_forces_VERY_HIGH (p : BuyerData) :
  PURCHASER_NAME_FROM_APS p <> PURCHASER_NAME_FROM_ID p
  \/ Some (PURCHASER_NAME_FROM_APS p) <> PURCHASER_NAME_FROM_HOUSESIGMA p
  \/ Some (PURCHASER_NAME_FROM_ID p) <> PURCHASER_NAME_FROM_HOUSESIGMA p
  \/ PURCHASER_ADDRESS_FROM_ID p <> PURCHASER_ADDRESS_FROM_APS p
  \/ ~ In (PURCHASER_ADDRESS_FROM_APS p) (PURCHASER_ADDRESS_LIST_FROM_LANDREGISTRY p) ->
  (forall t actions s, fst (_apply_general_checks p t actions s) = Ok VERY_HIGH)
  /\ (forall s v, fst (assess_buyer_risk p s) = Ok v -> risk_level v = VERY_HIGH).
Proof.
  intros H.
  assert (Hc : c_name_id_aps p = true \/ c_name_aps_hs p = true \/ c_name_id_hs p = true
               \/ c_address_id_aps p = true \/ c_address_registry p = true).
  { unfold c_name_id_aps, c_name_aps_hs, c_name_id_hs, c_address_id_aps,
      c_address_registry.
    rewrite !differs_true, not_contains_In, !negb_true_iff, !String.eqb_neq.
    exact H. }
  split.
  - intros t actions s. rewrite apply_general_checks_run. simpl.
    f_equal. apply mismatch_general_tier, Hc.
  - intros s v Hv. destruct (verdict_tier p s v Hv) as [t ->].
    apply mismatch_general_tier, Hc.
Qed.

Lemma mismatch_forces_VERY_HIGH_witness :
  PURCHASER_NAME_FROM_APS other_name_on_id <> PURCHASER_NAME_FROM_ID other_name_on_id
  /\ fst (_apply_general_checks other_name_on_id LOW [] init) = Ok VERY_HIGH
  /\ (exists v, fst (assess_buyer_risk other_name_on_id init) = Ok v
                /\ risk_level v = VERY_HIGH).
Proof.
  assert (H : PURCHASER_NAME_FROM_APS other_name_on_id
              <> PURCHASER_NAME_FROM_ID other_name_on_id) by discriminate.
  split; [exact H|].
  split.
  - exact (proj1 (mismatch_forces_VERY_HIGH other_name_on_id (or_introl H)) LOW [] init).
  - eexists. split.
    + vm_compute. reflexivity.
    + reflexivity.
Defined.

(** A verdict, when there is one, carries the reasons of the branch
    followed by those of the general pass. *)
Lemma verdict_reasons (p : BuyerData) (s : BuyerRiskAssessor) (v : Verdict) :
  fst (assess_buyer_risk p s) = Ok v ->
  exists branch_reasons, reasons v = branch_reasons ++ general_reasons p.
Proof.
  rewrite assess_buyer_risk_unfold.
  destruct ((if negb (_check_ownership p) then _assess_non_homeowner p
             else _assess_homeowner p) (mkAssessor [])) as [[[t actions]|e] s1];
    [|discriminate].
  destruct (_get_risk_factors p); [|discriminate].
  simpl. intros H. inversion H. exists (REASONS s1). reflexivity.
Qed.

Lemma said_true (r : string) : said true r = [r].
Proof. reflexivity. Qed.

(** C6.  With the listing-service name left at its default (the empty
    string) and equal, non-empty agreement and ID names, the general rule
    pass returns [VERY_HIGH] and appends both listing-service mismatch
    reasons; every verdict of such a profile is [VERY_HIGH] and lists both
    reasons. *)
Theorem default_listing_name_forces_VERY_HIGH (p : BuyerData) :
  PURCHASER_NAME_FROM_HOUSESIGMA p = HOUSESIGMA_default ->
  PURCHASER_NAME_FROM_APS p = PURCHASER_NAME_FROM_ID p ->
  PURCHASER_NAME_FROM_APS p <> "" ->
  (forall t actions s, exists rs,
      _apply_general_checks p t actions s = (Ok VERY_HIGH, append_all s rs)
      /\ In "Name mismatch between APS and HOUSESIGMA" rs
      /\ In "Name mismatch between ID and HOUSESIGMA" rs)
  /\ (forall s v, fst (assess_buyer_risk p s) = Ok v ->
      risk_level v = VERY_HIGH
      /\ In "Name mismatch between APS and HOUSESIGMA" (reasons v)
      /\ In "Name mismatch between ID and HOUSESIGMA" (reasons v)).
Proof.
  intros Hhs Heq Hne.
  assert (H1 : c_name_aps_hs p = true).
  { unfold c_name_aps_hs. rewrite Hhs. unfold HOUSESIGMA_default, differs.
    rewrite negb_true_iff, String.eqb_neq. exact Hne. }
  assert (H2 : c_name_id_hs p = true).
  { unfold c_name_id_hs. rewrite <- Heq. exact H1. }
  assert (Ht : forall t, general_tier p t = VERY_HIGH).
  { intros t. apply mismatch_general_tier. auto. }
  assert (Hr : In "Name mismatch between APS and HOUSESIGMA" (general_reasons p)
               /\ In "Name mismatch between ID and HOUSESIGMA" (general_reasons p)).
  { unfold general_reasons, before_age_reasons. rewrite H1, H2, !said_true.
    split; repeat (rewrite in_app_iff; simpl); tauto. }
  split.
  - intros t actions s. exists (general_reasons p).
    rewrite apply_general_checks_run, Ht. split; [reflexivity | exact Hr].
  - intros s v Hv.
    destruct (verdict_tier p s v Hv) as [t Hvt].
    destruct (verdict_reasons p s v Hv) as [br Hvr].
    rewrite Hvt, Hvr, Ht. split; [reflexivity|].
    split; apply in_or_app; right; apply Hr.
Qed.

Lemma default_listing_name_forces_VERY_HIGH_witness :
  PURCHASER_NAME_FROM_HOUSESIGMA no_listing_name = HOUSESIGMA_default
  /\ (exists rs,
        _apply_general_checks no_listing_name LOW [] init = (Ok VERY_HIGH, append_all init rs)
        /\ In "Name mismatch between APS and HOUSESIGMA" rs
        /\ In "Name mismatch between ID and HOUSESIGMA" rs)
  /\ (exists v, fst (assess_buyer_risk no_listing_name init) = Ok v
                /\ risk_level v = VERY_HIGH).
Proof.
  assert (Hne : PURCHASER_NAME_FROM_APS no_listing_name <> "") by discriminate.
  split; [reflexivity|].
  split.
  - exact (proj1 (default_listing_name_forces_VERY_HIGH no_listing_name
                    eq_refl eq_refl Hne) LOW [] init).
  - eexists. split; [vm_compute; reflexivity | reflexivity].
Defined.

(* ================================================================== *)
(** ** The age check *)

Lemma age_risk_true (age : Z) :
  age_risk age = true <-> (age <> 0 /\ (age < 30 \/ 60 < age))%Z.
Proof.
  unfold age_risk.
  rewrite andb_true_iff, orb_true_iff, negb_true_iff, Z.eqb_neq, !Z.ltb_lt.
  reflexivity.
Qed.

Lemma age_risk_false (age : Z) :
  age_risk age = false <-> (age = 0 \/ 30 <= age <= 60)%Z.
Proof.
  unfold age_risk.
  rewrite andb_false_iff, orb_false_iff, negb_false_iff, Z.eqb_eq, !Z.ltb_ge.
  reflexivity.
Qed.

Lemma multiple_properties_check_run (p : BuyerData) (t : RiskTier) (s : BuyerRiskAssessor) :
  bind (multiple_properties_check p t) (fun risk_level => ret risk_level) s
  = multiple_properties_check p t s.
Proof.
  unfold multiple_properties_check. erewrite bind_run by apply bump_run.
  rewrite bump_run. reflexivity.
Qed.

(** C9, as the code has it.  Let the checks before the age check leave tier
    [t8].  When the age is not 0 and is below 30 or above 60, the age check
    escalates [t8] by one step and appends "Age risk (<age> years)", and
    the pass goes on from there; when the age is 0 or lies in [30, 60], the
    age check changes neither the tier nor the reasons. *)
Theorem age_check_escalates (p : BuyerData) (t : RiskTier) (actions : list string)
    (s s8 : BuyerRiskAssessor) (t8 : RiskTier) :
  checks_before_age p t s = (Ok t8, s8) ->
  let age := PURCHASER_AGE_FROM_ID p in
  ((age <> 0 /\ (age < 30 \/ 60 < age))%Z ->
     age_check p t8 s8
     = (Ok (_increase_risk t8 1),
        append_all s8 [("Age risk (" ++ str_of_int age ++ " years)")%string])
     /\ _apply_general_checks p t actions s
        = multiple_properties_check p (_increase_risk t8 1)
            (append_all s8 [("Age risk (" ++ str_of_int age ++ " years)")%string]))
  /\ ((age = 0 \/ 30 <= age <= 60)%Z ->
     age_check p t8 s8 = (Ok t8, s8)
     /\ _apply_general_checks p t actions s = multiple_properties_check p t8 s8).
Proof.
  intros Hbefore age.
  assert (Hpass : forall t9 s9, age_check p t8 s8 = (Ok t9, s9) ->
            _apply_general_checks p t actions s = multiple_properties_check p t9 s9).
  { intros t9 s9 Hage. unfold _apply_general_checks.
    rewrite (bind_run _ _ _ _ _ Hbefore), (bind_run _ _ _ _ _ Hage).
    apply multiple_properties_check_run. }
  split; intros Hage.
  - apply age_risk_true in Hage.
    assert (H : age_check p t8 s8
                = (Ok (_increase_risk t8 1),
                   append_all s8 [("Age risk (" ++ str_of_int age ++ " years)")%string])).
    { unfold age_check. rewrite bump_run. fold age. rewrite Hage. reflexivity. }
    split; [exact H | exact (Hpass _ _ H)].
  - apply age_risk_false in Hage.
    assert (H : age_check p t8 s8 = (Ok t8, s8)).
    { unfold age_check. rewrite bump_run. fold age. rewrite Hage.
      simpl. rewrite append_all_nil. reflexivity. }
    split; [exact H | exact (Hpass _ _ H)].
Qed.

Lemma age_check_escalates_witness :
  checks_before_age (sample "John Smith" 25 [main_st] [] 0 0 0 800000) LOW init
    = (Ok LOW, init)
  /\ age_check (sample "John Smith" 25 [main_st] [] 0 0 0 800000) LOW init
     = (Ok MEDIUM, mkAssessor ["Age risk (25 years)"])
  /\ _apply_general_checks (sample "John Smith" 25 [main_st] [] 0 0 0 800000) LOW [] init
     = (Ok MEDIUM, mkAssessor ["Age risk (25 years)"]).
Proof.
  split; [reflexivity|].
  pose (p := sample "John Smith" 25 [main_st] [] 0 0 0 800000).
  assert (Hage : (PURCHASER_AGE_FROM_ID p <> 0
                  /\ (PURCHASER_AGE_FROM_ID p < 30 \/ 60 < PURCHASER_AGE_FROM_ID p))%Z)
    by (simpl; lia).
  destruct (proj1 (age_check_escalates p LOW [] init init LOW eq_refl) Hage) as [H1 H2].
  split; [exact H1 | exact H2].
Defined.

(** An age of 0 is below 30, and the pass escalates nothing and gives no
    reason: [age and ...] is false for 0. *)
Lemma age_zero_is_not_escalated :
  (PURCHASER_AGE_FROM_ID owner_aged_0 < 30)%Z
  /\ _apply_general_checks owner_aged_0 LOW [] init = (Ok LOW, init)
  /\ _increase_risk LOW 1 <> LOW.
Proof.
  split; [reflexivity|]. split; [vm_compute; reflexivity | discriminate].
Qed.

(* ================================================================== *)
(** ** The non-owner branch *)

(** The [if]/[elif] chain of the code computes the table of the
    specification. *)
Lemma price_tier_checks_table (price d : float) :
  price_tier_checks NO_RISK price d = spec_price_deposit_table price d.
Proof.
  unfold price_tier_checks, spec_price_deposit_table.
  destruct (price <? 800000)%float eqn:A; simpl.
  - destruct (25 <? d)%float eqn:B; simpl; [reflexivity|].
    destruct (15 <? d)%float eqn:C; simpl.
    + rewrite (between_15_and_25 d C B). reflexivity.
    + rewrite (ltb_not_leb _ _ A). simpl.
      rewrite andb_false_r. reflexivity.
  - destruct ((800000 <=? price)%float && (price <=? 1000000)%float) eqn:Band.
    + apply andb_true_iff in Band. destruct Band as [_ Hle].
      rewrite (leb_not_ltb _ _ Hle), (upto_1M _ Hle). simpl.
      destruct (20 <? d)%float; reflexivity.
    + simpl.
      destruct ((1000000 <? price)%float && (price <=? 1500000)%float),
        (1500000 <? price)%float, (25 <? d)%float; reflexivity.
Qed.

(** The non-owner branch when neither the override nor the related-party
    predicate fires. *)
Lemma assess_non_homeowner_quiet (p : BuyerData) (s : BuyerRiskAssessor) :
  _has_high_risk_overrides p = false ->
  _has_related_parties_not_on_aps p = Ok false ->
  _assess_non_homeowner p s
  = (Ok (price_tier_checks NO_RISK (PROPERTY_PRICE p)
           (pct (PURCHASER_DEPOSIT_PAID_FROM_APS p) (PROPERTY_PRICE p)),
         (if (PURCHASER_AGE_FROM_ID p <? 30)%Z
             && negb (_is_buyer_on_primary_residence_title p)
          then ["Request to add co-signers"] else [])
         ++ ["Request 25% downpayment proof"]),
     s).
Proof.
  intros Hover Hrel. unfold _assess_non_homeowner.
  rewrite guarded_pct_ok, Hover, Hrel. unfold bind, lift, ret. simpl.
  destruct ((PURCHASER_AGE_FROM_ID p <? 30)%Z
            && negb (_is_buyer_on_primary_residence_title p)); reflexivity.
Qed.

(** C3.  In the non-owner branch, with the override predicate false and
    the related-party predicate false, the branch returns the tier of the
    price/deposit table at [depositPct = deposit/price*100] (0 when the
    price is not positive), leaves the reasons alone and always asks for
    the downpayment proof.  At price 700,000 the deposit 200,000 gives
    [LOW] and the deposit 50,000 gives [NO_RISK]. *)
Theorem non_owner_price_deposit_table (p : BuyerData) (s : BuyerRiskAssessor) :
  _has_high_risk_overrides p = false ->
  _has_related_parties_not_on_aps p = Ok false ->
  let price := PROPERTY_PRICE p in
  let deposit := PURCHASER_DEPOSIT_PAID_FROM_APS p in
  (exists actions,
     _assess_non_homeowner p s
     = (Ok (spec_price_deposit_table price (pct deposit price), actions), s)
     /\ In "Request 25% downpayment proof" actions)
  /\ (price = 700000%float -> deposit = 200000%float ->
      exists actions, _assess_non_homeowner p s = (Ok (LOW, actions), s))
  /\ (price = 700000%float -> deposit = 50000%float ->
      exists actions, _assess_non_homeowner p s = (Ok (NO_RISK, actions), s)).
Proof.
  intros Hover Hrel price deposit.
  pose proof (assess_non_homeowner_quiet p s Hover Hrel) as Hrun.
  rewrite price_tier_checks_table in Hrun. fold price deposit in Hrun.
  split; [|split].
  - eexists. split; [exact Hrun|]. apply in_or_app. right. simpl. auto.
  - intros Hp Hd. eexists. rewrite Hrun, Hp, Hd. reflexivity.
  - intros Hp Hd. eexists. rewrite Hrun, Hp, Hd. reflexivity.
Qed.

Lemma non_owner_price_deposit_table_witness :
  _has_high_risk_overrides (first_time_buyer 200000 700000) = false
  /\ _has_related_parties_not_on_aps (first_time_buyer 200000 700000) = Ok false
  /\ _check_ownership (first_time_buyer 200000 700000) = false
  /\ (exists actions,
        _assess_non_homeowner (first_time_buyer 200000 700000) init
        = (Ok (LOW, actions), init))
  /\ (exists actions,
        _assess_non_homeowner (first_time_buyer 50000 700000) init
        = (Ok (NO_RISK, actions), init)).
Proof.
  split; [reflexivity|]. split; [reflexivity|]. split; [reflexivity|].
  split.
  - exact (proj1 (proj2 (non_owner_price_deposit_table (first_time_buyer 200000 700000)
                           init eq_refl eq_refl)) eq_refl eq_refl).
  - exact (proj2 (proj2 (non_owner_price_deposit_table (first_time_buyer 50000 700000)
                           init eq_refl eq_refl)) eq_refl eq_refl).
Defined.

(* ================================================================== *)
(** ** The owner branch *)

Lemma equity_checks_run (e : float) (t : RiskTier) (s : BuyerRiskAssessor) :
  equity_checks e t s = (Ok (equity_tier e t), append_all s (equity_reasons e)).
Proof.
  unfold equity_checks, equity_tier, equity_reasons.
  destruct (e <? 5)%float; [reflexivity|].
  destruct (e <? 15)%float; [reflexivity|].
  destruct (e <? 25)%float; [reflexivity|].
  unfold ret. rewrite append_all_nil. reflexivity.
Qed.

Lemma related_parties_check_run (b : bool) (t : RiskTier) (actions : list string)
    (s : BuyerRiskAssessor) :
  related_parties_check b t actions s
  = (Ok (if b then _increase_risk (_increase_risk t 1) 2 else t,
         actions ++ said b "Add related parties to APS"),
     append_all s (said b "Same last name different addresses.")).
Proof.
  unfold related_parties_check. destruct b.
  - reflexivity.
  - unfold ret. simpl. rewrite append_all_nil, app_nil_r. reflexivity.
Qed.

Lemma missing_coowner_check_run (p : BuyerData) (t : RiskTier) (s : BuyerRiskAssessor) :
  missing_coowner_check p t s
  = (Ok (if _is_missing_coowner_on_aps p then _increase_risk t 2 else t),
     append_all s (said (_is_missing_coowner_on_aps p) "Missing co-owner on APS")).
Proof.
  unfold missing_coowner_check. destruct (_is_missing_coowner_on_aps p).
  - reflexivity.
  - unfold ret. simpl. rewrite append_all_nil. reflexivity.
Qed.

(** The owner branch, once the related-party predicate has returned. *)
Lemma assess_homeowner_run (p : BuyerData) (s : BuyerRiskAssessor) (b : bool) :
  _has_related_parties_not_on_aps p = Ok b ->
  let e := pct (PRIMARY_RESIDENCE_EQUITY p) (PROPERTY_PRICE p) in
  let t_e := equity_tier e
               (home_value_ratio_check MEDIUM (PROPERTY_PRICE p)
                  (PRIMARY_RESIDENCE_VALUE_FROM_AVM p)) in
  let t_r := if b then _increase_risk (_increase_risk t_e 1) 2 else t_e in
  _assess_homeowner p s
  = (Ok (if _is_missing_coowner_on_aps p then _increase_risk t_r 2 else t_r,
         said b "Add related parties to APS"
         ++ ["Verify property ownership and equity"]),
     append_all s
       (equity_reasons e
        ++ said b "Same last name different addresses."
        ++ said (_is_missing_coowner_on_aps p) "Missing co-owner on APS")).
Proof.
  intros Hrel e t_e t_r. unfold _assess_homeowner.
  rewrite guarded_pct_ok, Hrel, bind_lift_Ok.
  erewrite bind_run by apply equity_checks_run.
  rewrite bind_lift_Ok.
  erewrite bind_run by apply related_parties_check_run.
  cbv beta iota.
  erewrite bind_run by apply missing_coowner_check_run.
  unfold ret. rewrite !append_all_app. reflexivity.
Qed.



(** C8.  In the owner branch, when the related-party predicate holds, the
    tier left by the equity rule is escalated by 1 step and then by 2 more,
    3 in all and with no test on the price; the reason "Same last name
    different addresses." follows the equity reasons and the action "Add
    related parties to APS" is the first action.  The missing-co-owner
    check then runs on that tier. *)
Theorem owner_related_parties_escalate (p : BuyerData) (s : BuyerRiskAssessor) :
  _has_related_parties_not_on_aps p = Ok true ->
  let e := pct (PRIMARY_RESIDENCE_EQUITY p) (PROPERTY_PRICE p) in
  let t0 := home_value_ratio_check MEDIUM (PROPERTY_PRICE p)
              (PRIMARY_RESIDENCE_VALUE_FROM_AVM p) in
  exists t_e s_e,
    equity_checks e t0 s = (Ok t_e, s_e)
    /\ related_parties_check true t_e [] s_e
       = (Ok (_increase_risk (_increase_risk t_e 1) 2, ["Add related parties to APS"]),
          append_all s_e ["Same last name different addresses."])
    /\ _increase_risk (_increase_risk t_e 1) 2 = _increase_risk t_e 3
    /\ _assess_homeowner p s
       = match missing_coowner_check p (_increase_risk t_e 3)
                 (append_all s_e ["Same last name different addresses."]) with
         | (Ok t, s') =>
             (Ok (t, ["Add related parties to APS";
                      "Verify property ownership and equity"]), s')
         | (Raise x, s') => (Raise x, s')
         end.
Proof.
  intros Hrel e t0.
  exists (equity_tier e t0), (append_all s (equity_reasons e)).
  split; [apply equity_checks_run|].
  split; [reflexivity|].
  split; [apply increase_risk_twice|].
  rewrite (assess_homeowner_run p s true Hrel), missing_coowner_check_run.
  fold e t0. rewrite (increase_risk_twice (equity_tier e t0) 1 2).
  change (1 + 2) with 3. rewrite !append_all_app. reflexivity.
Qed.

Lemma owner_related_parties_escalate_witness :
  _has_related_parties_not_on_aps owner_with_relative = Ok true
  /\ exists t_e s_e,
       equity_checks (pct 450000 800000)
         (home_value_ratio_check MEDIUM 800000 750000) init = (Ok t_e, s_e)
       /\ t_e = LOW
       /\ _increase_risk (_increase_risk t_e 1) 2 = _increase_risk t_e 3
       /\ _increase_risk t_e 3 = VERY_HIGH
       /\ _assess_homeowner owner_with_relative init
          = (Ok (VERY_HIGH, ["Add related parties to APS";
                             "Verify property ownership and equity"]),
             mkAssessor ["Same last name different addresses.";
                         "Missing co-owner on APS"]).
Proof.
  split; [reflexivity|].
  destruct (owner_related_parties_escalate owner_with_relative init eq_refl)
    as [t_e [s_e [He [_ [H3 Hrun]]]]].
  exists t_e, s_e.
  assert (Ht : t_e = LOW) by (vm_compute in He; inversion He; reflexivity).
  assert (Hs : s_e = init) by (vm_compute in He; inversion He; reflexivity).
  split; [exact He|]. split; [exact Ht|]. split; [exact H3|].
  split; [rewrite Ht; reflexivity|].
  rewrite Hrun, Ht, Hs. reflexivity.
Defined.

(* ================================================================== *)
(** ** An empty agreement name *)

Lemma related_parties_empty_name (p : BuyerData) :
  PURCHASER_NAME_FROM_APS p = "" ->
  _has_related_parties_not_on_aps p = Raise IndexError.
Proof. unfold _has_related_parties_not_on_aps. intros ->. reflexivity. Qed.

(** C7.  With an empty agreement name, [""].split()[-1]] raises
    [IndexError] in the related-party predicate; both branch evaluators
    call the predicate, so both raise, and the assessment raises instead
    of returning a verdict. *)
Theorem empty_name_raises (p : BuyerData) (s : BuyerRiskAssessor) :
  PURCHASER_NAME_FROM_APS p = "" ->
  last_name (PURCHASER_NAME_FROM_APS p) = Raise IndexError
  /\ _has_related_parties_not_on_aps p = Raise IndexError
  /\ (exists s', _assess_non_homeowner p s = (Raise IndexError, s'))
  /\ (exists s', _assess_homeowner p s = (Raise IndexError, s'))
  /\ (exists s', assess_buyer_risk p s = (Raise IndexError, s'))
  /\ (forall v, fst (assess_buyer_risk p s) <> Ok v).
Proof.
  intros Hname.
  pose proof (related_parties_empty_name p Hname) as Hrel.
  assert (Hnon : forall s0, _assess_non_homeowner p s0 = (Raise IndexError, s0)).
  { intros s0. unfold _assess_non_homeowner.
    rewrite guarded_pct_ok, Hrel, bind_lift_Ok. reflexivity. }
  assert (Hown : forall s0, exists s', _assess_homeowner p s0 = (Raise IndexError, s')).
  { intros s0. unfold _assess_homeowner.
    rewrite guarded_pct_ok, Hrel, bind_lift_Ok.
    erewrite bind_run by apply equity_checks_run.
    rewrite bind_lift_Raise. eexists. reflexivity. }
  assert (Hall : exists s', assess_buyer_risk p s = (Raise IndexError, s')).
  { rewrite assess_buyer_risk_unfold. destruct (negb (_check_ownership p)).
    - rewrite Hnon. eexists. reflexivity.
    - destruct (Hown (mkAssessor [])) as [s' ->]. eexists. reflexivity. }
  split; [rewrite Hname; reflexivity|].
  split; [exact Hrel|].
  split; [exists s; apply Hnon|].
  split; [apply Hown|].
  split; [exact Hall|].
  intros v. destruct Hall as [s' ->]. discriminate.
Qed.

Lemma empty_name_raises_witness :
  PURCHASER_NAME_FROM_APS nameless = ""
  /\ _has_related_parties_not_on_aps nameless = Raise IndexError
  /\ fst (assess_buyer_risk nameless init) = Raise IndexError.
Proof.
  split; [reflexivity|].
  split.
  - exact (proj1 (proj2 (empty_name_raises nameless init eq_refl))).
  - reflexivity.
Defined.

(* ================================================================== *)
(** ** A price of zero *)

Lemma truediv_zero (a b : float) :
  (b =? 0)%float = true -> truediv a b = Raise ZeroDivisionError.
Proof. unfold truediv. intros ->. reflexivity. Qed.

Lemma guarded_pct_zero (part price : float) :
  (price =? 0)%float = true -> guarded_pct part price = Ok 0%float.
Proof.
  intros H. unfold guarded_pct. rewrite (zero_not_positive _ H). reflexivity.
Qed.

(** C5, as the code has it.  With a price of zero the reporter raises
    Python's own [ZeroDivisionError], and it does so at the home-value
    ratio, the first of its two divisions, neither of which tests the
    price; no default is substituted, so an assessment whose branch returns
    raises too and no verdict is produced.  The two percentages of the
    branch evaluators are guarded and are 0. *)
Theorem zero_price_raises (p : BuyerData) (s : BuyerRiskAssessor) :
  (PROPERTY_PRICE p =? 0)%float = true ->
  home_value_to_price p = Raise ZeroDivisionError
  /\ reporter_deposit_pct p = Raise ZeroDivisionError
  /\ _get_risk_factors p = Raise ZeroDivisionError
  /\ guarded_pct (PURCHASER_DEPOSIT_PAID_FROM_APS p) (PROPERTY_PRICE p) = Ok 0%float
  /\ guarded_pct (PRIMARY_RESIDENCE_EQUITY p) (PROPERTY_PRICE p) = Ok 0%float
  /\ (forall t actions s1,
        (if negb (_check_ownership p) then _assess_non_homeowner p
         else _assess_homeowner p) (mkAssessor []) = (Ok (t, actions), s1) ->
        fst (assess_buyer_risk p s) = Raise ZeroDivisionError)
  /\ (forall v, fst (assess_buyer_risk p s) <> Ok v).
Proof.
  intros Hzero.
  assert (Hratio : home_value_to_price p = Raise ZeroDivisionError)
    by (apply truediv_zero, Hzero).
  assert (Hfactors : _get_risk_factors p = Raise ZeroDivisionError)
    by (unfold _get_risk_factors; rewrite Hratio; reflexivity).
  repeat split.
  - exact Hratio.
  - unfold reporter_deposit_pct. rewrite (truediv_zero _ _ Hzero). reflexivity.
  - exact Hfactors.
  - apply guarded_pct_zero, Hzero.
  - apply guarded_pct_zero, Hzero.
  - intros t actions s1 Hbranch.
    rewrite assess_buyer_risk_unfold, Hbranch, Hfactors. reflexivity.
  - intros v. rewrite assess_buyer_risk_unfold, Hfactors.
    destruct ((if negb (_check_ownership p) then _assess_non_homeowner p
               else _assess_homeowner p) (mkAssessor [])) as [[[t actions]|e] s1];
      discriminate.
Qed.

Lemma zero_price_raises_witness :
  (PROPERTY_PRICE (owner 750000 450000 0) =? 0)%float = true
  /\ _get_risk_factors (owner 750000 450000 0) = Raise ZeroDivisionError
  /\ fst (assess_buyer_risk (owner 750000 450000 0) init) = Raise ZeroDivisionError.
Proof.
  split; [reflexivity|].
  split.
  - exact (proj1 (proj2 (proj2 (zero_price_raises (owner 750000 450000 0) init eq_refl)))).
  - reflexivity.
Defined.

(** At a price of zero the error is the built-in [ZeroDivisionError], and
    the division that raises it is the home-value ratio: a division other
    than the deposit percentage that is not guarded and does not fall back
    to 0. *)
Lemma zero_price_error_is_the_ratio_division :
  (PROPERTY_PRICE (owner 750000 450000 0) =? 0)%float = true
  /\ home_value_to_price (owner 750000 450000 0) = Raise ZeroDivisionError
  /\ home_value_to_price (owner 750000 450000 0) <> Ok 0%float
  /\ _get_risk_factors (owner 750000 450000 0) = Raise ZeroDivisionError.
Proof.
  split; [reflexivity|]. split; [reflexivity|]. split; [discriminate | reflexivity].
Qed.

(* ================================================================== *)
(** ** Where the reasons live *)

(** C10, as the code has it.  The reasons are kept in the [REASONS]
    attribute of the engine instance: a call first rebinds it to an empty
    list, so the outcome and the state a call leaves depend on the profile
    alone, and the list a verdict returns is the list the instance holds
    when the call ends. *)
Theorem reasons_are_instance_state (p : BuyerData) (s : BuyerRiskAssessor) :
  assess_buyer_risk p s = assess_buyer_risk p init
  /\ (forall v, fst (assess_buyer_risk p s) = Ok v ->
      REASONS (snd (assess_buyer_risk p s)) = reasons v).
Proof.
  split.
  - rewrite !assess_buyer_risk_unfold. reflexivity.
  - rewrite assess_buyer_risk_unfold.
    destruct ((if negb (_check_ownership p) then _assess_non_homeowner p
               else _assess_homeowner p) (mkAssessor [])) as [[[t actions]|e] s1];
      [|discriminate].
    destruct (_get_risk_factors p); [|discriminate].
    simpl. intros v H. inversion H. reflexivity.
Qed.

Lemma reasons_are_instance_state_witness :
  assess_buyer_risk other_name_on_id (mkAssessor ["left by an earlier call"])
  = assess_buyer_risk other_name_on_id init
  /\ exists v, fst (assess_buyer_risk other_name_on_id init) = Ok v
       /\ REASONS (snd (assess_buyer_risk other_name_on_id init)) = reasons v.
Proof.
  split.
  - exact (proj1 (reasons_are_instance_state other_name_on_id
                    (mkAssessor ["left by an earlier call"]))).
  - eexists. split; [vm_compute; reflexivity|].
    apply (proj2 (reasons_are_instance_state other_name_on_id init)).
    vm_compute. reflexivity.
Defined.

(** After a call the instance holds the reasons of that call: they are
    stored on the engine. *)
Lemma reasons_are_stored_on_the_engine :
  REASONS init = []
  /\ REASONS (snd (assess_buyer_risk other_name_on_id init))
     = ["Name mismatch between ID and APS"; "Name mismatch between ID and HOUSESIGMA"]
  /\ snd (assess_buyer_risk other_name_on_id init) <> init.
Proof.
  split; [reflexivity|]. split; [vm_compute; reflexivity | discriminate].
Qed.

(* ================================================================== *)
(** * Further properties of the engine *)

(* ================================================================== *)
(** ** Ownership *)

Lemma truthy_true {A} (l : list A) : truthy l = true <-> l <> [].
Proof. destruct l; simpl; split; intros H; congruence. Qed.

Lemma truthy_false {A} (l : list A) : truthy l = false <-> l = [].
Proof. destruct l; simpl; split; intros H; congruence. Qed.

(** X1.  The buyer counts as an owner exactly when the title list of the
    primary residence, the buyer's land-registry list or the land-registry
    list of some co-signer is non-empty; a non-owner has all of them
    empty. *)
Theorem check_ownership_iff (p : BuyerData) :
  (_check_ownership p = true <->
     PRIMARY_RESIDENCE_TITLE_NAMES p <> []
     \/ PURCHASER_ADDRESS_LIST_FROM_LANDREGISTRY p <> []
     \/ exists c, In c (CO_SIGNER_LIST_FROM_APS p)
                  /\ CO_SIGNER_ADDRESS_LIST_FROM_LANDREGISTRY c <> [])
  /\ (_check_ownership p = false <->
     PRIMARY_RESIDENCE_TITLE_NAMES p = []
     /\ PURCHASER_ADDRESS_LIST_FROM_LANDREGISTRY p = []
     /\ forall c, In c (CO_SIGNER_LIST_FROM_APS p) ->
                  CO_SIGNER_ADDRESS_LIST_FROM_LANDREGISTRY c = []).
Proof.
  unfold _check_ownership. split.
  - destruct (truthy (PRIMARY_RESIDENCE_TITLE_NAMES p)) eqn:H1.
    { apply truthy_true in H1. tauto. }
    destruct (truthy (PURCHASER_ADDRESS_LIST_FROM_LANDREGISTRY p)) eqn:H2.
    { apply truthy_true in H2. tauto. }
    apply truthy_false in H1, H2. rewrite existsb_exists. split.
    + intros [c [Hin Hc]]. right. right. exists c. split; [exact Hin|].
      apply truthy_true, Hc.
    + intros [H|[H|[c [Hin Hc]]]]; try contradiction.
      exists c. split; [exact Hin | apply truthy_true, Hc].
  - destruct (truthy (PRIMARY_RESIDENCE_TITLE_NAMES p)) eqn:H1.
    { apply truthy_true in H1. split; [discriminate | tauto]. }
    destruct (truthy (PURCHASER_ADDRESS_LIST_FROM_LANDREGISTRY p)) eqn:H2.
    { apply truthy_true in H2. split; [discriminate | tauto]. }
    apply truthy_false in H1, H2. split.
    + intros Hex. split; [exact H1|]. split; [exact H2|].
      intros c Hin. apply truthy_false.
      destruct (truthy (CO_SIGNER_ADDRESS_LIST_FROM_LANDREGISTRY c)) eqn:Hc;
        [|reflexivity].
      assert (Hsome : existsb
                (fun cosigner => truthy (CO_SIGNER_ADDRESS_LIST_FROM_LANDREGISTRY cosigner))
                (CO_SIGNER_LIST_FROM_APS p) = true)
        by (apply existsb_exists; exists c; auto).
      congruence.
    + intros [_ [_ Hall]].
      destruct (existsb
                  (fun cosigner => truthy (CO_SIGNER_ADDRESS_LIST_FROM_LANDREGISTRY cosigner))
                  (CO_SIGNER_LIST_FROM_APS p)) eqn:Hex; [|reflexivity].
      apply existsb_exists in Hex. destruct Hex as [c [Hin Hc]].
      apply truthy_true in Hc. exfalso. apply Hc, Hall, Hin.
Qed.

(* ================================================================== *)
(** ** Composing escalations *)

(** X2.  Escalating by [n] and then by [m] is escalating by [n + m], in
    either order, and escalating by 0 changes nothing. *)
Theorem escalate_compose (t : RiskTier) (n m : nat) :
  _increase_risk (_increase_risk t n) m = _increase_risk t (n + m)
  /\ _increase_risk (_increase_risk t n) m = _increase_risk (_increase_risk t m) n
  /\ _increase_risk t 0 = t.
Proof.
  split; [apply increase_risk_twice|]. split.
  - rewrite !increase_risk_twice. f_equal. lia.
  - destruct t; reflexivity.
Qed.

(* ================================================================== *)
(** ** The general pass only raises the tier, and says why *)

Lemma ladder_le_trans (a b c : RiskTier) : ladder_le a b -> ladder_le b c -> ladder_le a c.
Proof.
  unfold ladder_le.
  destruct (index tier_eqb risk_order a), (index tier_eqb risk_order b),
    (index tier_eqb risk_order c); try tauto; lia.
Qed.

Lemma ladder_le_refl (t : RiskTier) : t <> NO_RISK -> ladder_le t t.
Proof. destruct t; intros H; try (vm_compute; lia). contradiction. Qed.

Lemma ladder_le_VERY_HIGH (t : RiskTier) : t <> NO_RISK -> ladder_le t VERY_HIGH.
Proof. destruct t; intros H; try (vm_compute; lia). contradiction. Qed.

Lemma ladder_le_on_ladder (a b : RiskTier) : ladder_le a b -> a <> NO_RISK /\ b <> NO_RISK.
Proof. destruct a, b; vm_compute; intros H; split; try discriminate; contradiction. Qed.

Lemma forced_above (a b : RiskTier) (c : bool) : ladder_le a b -> ladder_le a (forced c b).
Proof.
  intros H. destruct c; [|exact H]. simpl.
  apply ladder_le_VERY_HIGH, (ladder_le_on_ladder _ _ H).
Qed.

Lemma bumped_above (a b : RiskTier) (c : bool) : ladder_le a b -> ladder_le a (bumped c b).
Proof.
  intros H. destruct c; [|exact H]. simpl.
  apply (ladder_le_trans _ _ _ H).
  destruct b; try (vm_compute; lia). destruct (ladder_le_on_ladder _ _ H); contradiction.
Qed.

Lemma said_nil (c : bool) (r : string) : said c r = [] -> c = false.
Proof. destruct c; [discriminate | reflexivity]. Qed.

Lemma said_length (c : bool) (r : string) : List.length (said c r) <= 1.
Proof. destruct c; simpl; lia. Qed.

(** X3.  The general rule pass never raises an exception and never lowers
    the tier: from a tier of the ladder it returns that tier or a higher
    one, from [NO_RISK] it returns [NO_RISK] or [VERY_HIGH].  It appends at
    most ten reasons after those already there, and when it appends none
    it returns the tier it was given. *)
Theorem general_pass_only_raises (p : BuyerData) (t : RiskTier) (actions : list string)
    (s : BuyerRiskAssessor) :
  exists t' rs,
    _apply_general_checks p t actions s = (Ok t', mkAssessor (REASONS s ++ rs))
    /\ List.length rs <= 10
    /\ (rs = [] -> t' = t)
    /\ (t <> NO_RISK -> ladder_le t t')
    /\ (t = NO_RISK -> t' = NO_RISK \/ t' = VERY_HIGH).
Proof.
  exists (general_tier p t), (general_reasons p).
  split; [apply apply_general_checks_run|].
  split; [|split; [|split]].
  - unfold general_reasons, before_age_reasons. rewrite !length_app.
    repeat match goal with
    | |- context [List.length (said ?c ?r)] =>
        let H := fresh in
        pose proof (said_length c r) as H;
        generalize dependent (List.length (said c r)); intros
    end.
    lia.
  - unfold general_reasons, before_age_reasons. intros H.
    repeat match goal with
    | E : _ ++ _ = [] |- _ => apply app_eq_nil in E; destruct E
    | E : said _ _ = [] |- _ => apply said_nil in E
    end.
    unfold general_tier, before_age_tier.
    repeat match goal with
    | E : _ = false |- _ => rewrite E; clear E
    end.
    reflexivity.
  - intros Hon. unfold general_tier, before_age_tier.
    repeat first [apply bumped_above | apply forced_above].
    apply ladder_le_refl, Hon.
  - intros ->. unfold general_tier, before_age_tier.
    assert (Hf : forall c x, (x = NO_RISK \/ x = VERY_HIGH) ->
                             forced c x = NO_RISK \/ forced c x = VERY_HIGH).
    { intros c x [-> | ->]; destruct c; auto. }
    assert (Hb : forall c x, (x = NO_RISK \/ x = VERY_HIGH) ->
                             bumped c x = NO_RISK \/ bumped c x = VERY_HIGH).
    { intros c x [-> | ->]; destruct c; auto. }
    repeat first [apply Hb | apply Hf]. auto.
Qed.

(* ================================================================== *)
(** ** What a tier below [VERY_HIGH] requires *)

Lemma any_force_general_tier (p : BuyerData) (t : RiskTier) :
  c_name_id_aps p = true \/ c_name_aps_hs p = true \/ c_name_id_hs p = true
  \/ c_address_id_aps p = true \/ c_address_registry p = true
  \/ deposit_by_others p = true ->
  general_tier p t = VERY_HIGH.
Proof.
  unfold general_tier, before_age_tier.
  intros [H|[H|[H|[H|[H|H]]]]]; rewrite H; stays_very_high.
Qed.

Lemma deposit_by_self (p : BuyerData) :
  deposit_by_others p = false ->
  OTHER_DEPOSIT_PAID_NAME_LIST_FROM_APS p = [PURCHASER_NAME_FROM_APS p].
Proof.
  unfold deposit_by_others.
  destruct (OTHER_DEPOSIT_PAID_NAME_LIST_FROM_APS p) as [|x [|y l]]; simpl;
    try discriminate.
  rewrite orb_false_r. intros H. apply negb_false_iff in H.
  apply String.eqb_eq in H. subst. reflexivity.
Qed.

(** X4.  When the general rule pass returns a tier other than
    [VERY_HIGH], the profile is consistent: the agreement, ID and
    listing-service names are one and the same, the ID and agreement
    addresses are equal, the agreement address is in the land-registry
    list, and the deposit was paid by the purchaser alone. *)
Theorem below_VERY_HIGH_is_consistent (p : BuyerData) (t t' : RiskTier)
    (actions : list string) (s : BuyerRiskAssessor) :
  fst (_apply_general_checks p t actions s) = Ok t' ->
  t' <> VERY_HIGH ->
  PURCHASER_NAME_FROM_ID p = PURCHASER_NAME_FROM_APS p
  /\ PURCHASER_NAME_FROM_HOUSESIGMA p = Some (PURCHASER_NAME_FROM_APS p)
  /\ PURCHASER_ADDRESS_FROM_ID p = PURCHASER_ADDRESS_FROM_APS p
  /\ In (PURCHASER_ADDRESS_FROM_APS p) (PURCHASER_ADDRESS_LIST_FROM_LANDREGISTRY p)
  /\ OTHER_DEPOSIT_PAID_NAME_LIST_FROM_APS p = [PURCHASER_NAME_FROM_APS p].
Proof.
  rewrite apply_general_checks_run. simpl. intros Ht Hnot.
  inversion Ht as [Ht']. clear Ht.
  assert (Hall : c_name_id_aps p = false /\ c_name_aps_hs p = false
                 /\ c_address_id_aps p = false /\ c_address_registry p = false
                 /\ deposit_by_others p = false).
  { repeat split;
      match goal with
      | |- ?c = false =>
          destruct c eqn:E; [|reflexivity];
          exfalso; apply Hnot; rewrite <- Ht'; apply any_force_general_tier; tauto
      end. }
  destruct Hall as [H1 [H2 [H4 [H5 H7]]]].
  unfold c_name_id_aps in H1. apply negb_false_iff, String.eqb_eq in H1.
  unfold c_name_aps_hs, differs in H2.
  destruct (PURCHASER_NAME_FROM_HOUSESIGMA p) as [hs|] eqn:Hhs; [|discriminate].
  apply negb_false_iff, String.eqb_eq in H2.
  unfold c_address_id_aps in H4. apply negb_false_iff, String.eqb_eq in H4.
  unfold c_address_registry in H5. apply negb_false_iff, contains_In in H5.
  repeat split.
  - symmetry. exact H1.
  - rewrite H2. reflexivity.
  - exact H4.
  - exact H5.
  - apply deposit_by_self, H7.
Qed.

Lemma below_VERY_HIGH_is_consistent_witness :
  fst (_apply_general_checks (owner 750000 450000 800000) LOW [] init) = Ok LOW
  /\ PURCHASER_NAME_FROM_HOUSESIGMA (owner 750000 450000 800000)
     = Some (PURCHASER_NAME_FROM_APS (owner 750000 450000 800000))
  /\ OTHER_DEPOSIT_PAID_NAME_LIST_FROM_APS (owner 750000 450000 800000)
     = [PURCHASER_NAME_FROM_APS (owner 750000 450000 800000)].
Proof.
  assert (Hrun : fst (_apply_general_checks (owner 750000 450000 800000) LOW [] init)
                 = Ok LOW) by reflexivity.
  assert (Hnot : LOW <> VERY_HIGH) by discriminate.
  pose proof (below_VERY_HIGH_is_consistent (owner 750000 450000 800000) LOW LOW []
                init Hrun Hnot) as [_ [H2 [_ [_ H5]]]].
  split; [exact Hrun|]. split; [exact H2 | exact H5].
Defined.

(* ================================================================== *)
(** ** The override of the non-owner branch and the general pass *)

(** The non-owner branch, once the related-party predicate has returned. *)
Lemma assess_non_homeowner_run (p : BuyerData) (s : BuyerRiskAssessor) (b : bool) :
  _has_related_parties_not_on_aps p = Ok b ->
  let price := PROPERTY_PRICE p in
  let t := if _has_high_risk_overrides p then HIGH
           else price_tier_checks NO_RISK price
                  (pct (PURCHASER_DEPOSIT_PAID_FROM_APS p) price) in
  _assess_non_homeowner p s
  = (Ok (if b then
           if (1000000 <? price)%float
           then _increase_risk (_increase_risk t 1) 2 else _increase_risk t 1
         else t,
         said b "Add related parties to APS"
         ++ said ((PURCHASER_AGE_FROM_ID p <? 30)%Z
                  && negb (_is_buyer_on_primary_residence_title p))
              "Request to add co-signers"
         ++ ["Request 25% downpayment proof"]),
     s).
Proof.
  intros Hrel price t. unfold _assess_non_homeowner.
  rewrite guarded_pct_ok, bind_lift_Ok, Hrel, bind_lift_Ok. fold price. fold t.
  destruct b, ((PURCHASER_AGE_FROM_ID p <? 30)%Z
               && negb (_is_buyer_on_primary_residence_title p)); reflexivity.
Qed.

Lemma overrides_cases (p : BuyerData) :
  _has_high_risk_overrides p
  = c_distance p || deposit_by_others p || mortgage_parties p
    || age_risk (PURCHASER_AGE_FROM_ID p) || c_address_id_aps p.
Proof.
  unfold _has_high_risk_overrides, _has_different_addresses, c_distance, c_address_id_aps.
  destruct (75 <? DISTANCE p)%float, (deposit_by_others p), (mortgage_parties p),
    (age_risk (PURCHASER_AGE_FROM_ID p)),
    (negb (PURCHASER_ADDRESS_FROM_ID p =? PURCHASER_ADDRESS_FROM_APS p)); reflexivity.
Qed.

(** X5.  The override predicate of the non-owner branch tests conditions
    that the general rule pass tests again.  When it is false, the pass can
    give no reason but the three name mismatches, the land-registry
    mismatch and the multiple-property one; when it is true, the [HIGH] it sets (or the tier the related-party
    escalation makes of it) is turned into [VERY_HIGH] by the pass. *)
Theorem override_then_general_pass (p : BuyerData) (s : BuyerRiskAssessor) :
  (_has_high_risk_overrides p = false ->
     general_reasons p
     = said (c_name_id_aps p) "Name mismatch between ID and APS"
       ++ said (c_name_aps_hs p) "Name mismatch between APS and HOUSESIGMA"
       ++ said (c_name_id_hs p) "Name mismatch between ID and HOUSESIGMA"
       ++ said (c_address_registry p) (landregistry_reason p)
       ++ said (c_multiple p) "Multiple property ownership")
  /\ (_has_high_risk_overrides p = true ->
      forall t actions s', _assess_non_homeowner p s = (Ok (t, actions), s') ->
      fst (_apply_general_checks p t actions s') = Ok VERY_HIGH).
Proof.
  split.
  - rewrite overrides_cases. intros H.
    unfold general_reasons, before_age_reasons.
    destruct (c_distance p), (deposit_by_others p), (mortgage_parties p),
      (age_risk (PURCHASER_AGE_FROM_ID p)), (c_address_id_aps p);
      try discriminate H.
    simpl. rewrite <- !app_assoc. reflexivity.
  - intros Hover t actions s' Hrun.
    assert (Hhigh : t = HIGH \/ t = VERY_HIGH).
    { destruct (_has_related_parties_not_on_aps p) as [b|e] eqn:Hrel.
      - rewrite (assess_non_homeowner_run p s b Hrel), Hover in Hrun.
        inversion Hrun as [[Ht Ha Hs]].
        destruct b, (1000000 <? PROPERTY_PRICE p)%float; auto.
      - unfold _assess_non_homeowner in Hrun.
        rewrite guarded_pct_ok, bind_lift_Ok, Hrel, bind_lift_Raise in Hrun.
        discriminate Hrun. }
    rewrite apply_general_checks_run. simpl. f_equal.
    assert (Hf : forall c x, (x = HIGH \/ x = VERY_HIGH) ->
                             forced c x = HIGH \/ forced c x = VERY_HIGH).
    { intros c x [-> | ->]; destruct c; auto. }
    assert (Hb : forall c x, (x = HIGH \/ x = VERY_HIGH) ->
                             bumped c x = HIGH \/ bumped c x = VERY_HIGH).
    { intros c x [-> | ->]; destruct c; auto. }
    assert (Hbt : forall x, (x = HIGH \/ x = VERY_HIGH) -> bumped true x = VERY_HIGH).
    { intros x [-> | ->]; reflexivity. }
    rewrite overrides_cases in Hover.
    assert (Hc : c_distance p = true \/ deposit_by_others p = true
                 \/ mortgage_parties p = true
                 \/ age_risk (PURCHASER_AGE_FROM_ID p) = true
                 \/ c_address_id_aps p = true).
    { destruct (c_distance p), (deposit_by_others p), (mortgage_parties p),
        (age_risk (PURCHASER_AGE_FROM_ID p)), (c_address_id_aps p);
        try discriminate Hover; tauto. }
    clear Hover.
    unfold general_tier, before_age_tier.
    destruct Hc as [Hover|[Hover|[Hover|[Hover|Hover]]]].
    + rewrite Hover.
      rewrite (Hbt (forced (c_address_registry p) _)) by (repeat first [apply Hf | exact Hhigh]).
      stays_very_high.
    + rewrite Hover. stays_very_high.
    + rewrite Hover.
      rewrite (Hbt (forced (deposit_by_others p) _))
        by (repeat first [apply Hf | apply Hb | exact Hhigh]).
      stays_very_high.
    + rewrite Hover.
      rewrite (Hbt (bumped (mortgage_parties p) _))
        by (repeat first [apply Hf | apply Hb | exact Hhigh]).
      stays_very_high.
    + rewrite Hover. stays_very_high.
Qed.

Lemma override_then_general_pass_witness :
  _has_high_risk_overrides (sample "John Smith" 25 [] [] 200000 0 0 700000) = true
  /\ _assess_non_homeowner (sample "John Smith" 25 [] [] 200000 0 0 700000) init
     = (Ok (HIGH, ["Request to add co-signers"; "Request 25% downpayment proof"]), init)
  /\ fst (_apply_general_checks (sample "John Smith" 25 [] [] 200000 0 0 700000) HIGH
            ["Request to add co-signers"; "Request 25% downpayment proof"] init)
     = Ok VERY_HIGH.
Proof.
  split; [reflexivity|]. split; [reflexivity|].
  exact (proj2 (override_then_general_pass
                  (sample "John Smith" 25 [] [] 200000 0 0 700000) init)
           eq_refl HIGH _ init eq_refl).
Defined.

(* ================================================================== *)
(** ** Names without a token *)





Lemma last_name_only_IndexError (s : string) (e : exn) :
  last_name s = Raise e -> e = IndexError.
Proof.
  unfold last_name, last_item. destruct (rev (split s)); intros H; inversion H.
  reflexivity.
Qed.


Lemma any_related_only_IndexError (l : string) (known owners : list string) (e : exn) :
  any_related l known owners = Raise e -> e = IndexError.
Proof.
  induction owners as [|name rest IH]; simpl; [discriminate|].
  destruct (last_name name) as [x|e'] eqn:E; simpl.
  - destruct ((x =? l) && negb (contains name known)); [discriminate | exact IH].
  - intros H. inversion H. subst. apply (last_name_only_IndexError name), E.
Qed.



(* ================================================================== *)
(** ** What a verdict is made of *)

Lemma verdict_inv (p : BuyerData) (s : BuyerRiskAssessor) (v : Verdict) :
  fst (assess_buyer_risk p s) = Ok v ->
  exists t actions s1 factors,
    (if negb (_check_ownership p) then _assess_non_homeowner p
     else _assess_homeowner p) (mkAssessor []) = (Ok (t, actions), s1)
    /\ _get_risk_factors p = Ok factors
    /\ v = mkVerdict (general_tier p t) actions factors (REASONS s1 ++ general_reasons p).
Proof.
  rewrite assess_buyer_risk_unfold.
  destruct ((if negb (_check_ownership p) then _assess_non_homeowner p
             else _assess_homeowner p) (mkAssessor [])) as [[[t actions]|e] s1];
    [|discriminate].
  destruct (_get_risk_factors p) as [factors|e]; [|discriminate].
  simpl. intros H. inversion H. exists t, actions, s1, factors. auto.
Qed.

Lemma general_tier_above (p : BuyerData) (t : RiskTier) :
  t <> NO_RISK -> ladder_le t (general_tier p t).
Proof.
  intros Hon. unfold general_tier, before_age_tier.
  repeat first [apply bumped_above | apply forced_above].
  apply ladder_le_refl, Hon.
Qed.

(* ================================================================== *)
(** ** First-time buyers *)

Lemma non_owner_lists (p : BuyerData) :
  _check_ownership p = false ->
  PRIMARY_RESIDENCE_TITLE_NAMES p = []
  /\ PURCHASER_ADDRESS_LIST_FROM_LANDREGISTRY p = [].
Proof.
  unfold _check_ownership.
  destruct (PRIMARY_RESIDENCE_TITLE_NAMES p); simpl; [|discriminate].
  destruct (PURCHASER_ADDRESS_LIST_FROM_LANDREGISTRY p); simpl; [|discriminate].
  auto.
Qed.

Lemma non_owner_related (p : BuyerData) (b : bool) :
  PRIMARY_RESIDENCE_TITLE_NAMES p = [] ->
  _has_related_parties_not_on_aps p = Ok b -> b = false.
Proof.
  unfold _has_related_parties_not_on_aps. intros ->.
  destruct (last_name (PURCHASER_NAME_FROM_APS p)); simpl; intros H; inversion H.
  reflexivity.
Qed.

Lemma non_owner_general (p : BuyerData) :
  PURCHASER_ADDRESS_LIST_FROM_LANDREGISTRY p = [] ->
  (forall t, general_tier p t = VERY_HIGH)
  /\ In "Address in APS not found in LAND REGISTRY - empty" (general_reasons p).
Proof.
  intros Hreg.
  assert (Hc : c_address_registry p = true)
    by (unfold c_address_registry; rewrite Hreg; reflexivity).
  split.
  - intros t. apply mismatch_general_tier. tauto.
  - unfold general_reasons, before_age_reasons, landregistry_reason.
    rewrite Hc, Hreg. simpl. repeat (rewrite in_app_iff; simpl). tauto.
Qed.

(** X7.  A buyer the ownership check rejects has an empty land-registry
    list, so the agreement address cannot be found in it: every verdict of
    a first-time buyer is [VERY_HIGH] with the reason "Address in APS not
    found in LAND REGISTRY - empty".  Such a buyer has no title names
    either, so the related-party action is never suggested: the actions
    are the co-signer request when the age is below 30, then the
    downpayment proof; the reasons are those of the general pass alone and
    the first risk factor is "First-time homebuyer". *)
Theorem first_time_buyer_verdict (p : BuyerData) (s : BuyerRiskAssessor) (v : Verdict) :
  _check_ownership p = false ->
  fst (assess_buyer_risk p s) = Ok v ->
  risk_level v = VERY_HIGH
  /\ reasons v = general_reasons p
  /\ In "Address in APS not found in LAND REGISTRY - empty" (reasons v)
  /\ suggested_actions v
     = said (PURCHASER_AGE_FROM_ID p <? 30)%Z "Request to add co-signers"
       ++ ["Request 25% downpayment proof"]
  /\ hd_error (risk_factors v) = Some First_time_homebuyer.
Proof.
  intros Hown Hv.
  destruct (non_owner_lists p Hown) as [Htitles Hreg].
  destruct (non_owner_general p Hreg) as [Htier Hreason].
  destruct (verdict_inv p s v Hv) as [t [actions [s1 [factors [Hbranch [Hf ->]]]]]].
  rewrite Hown in Hbranch. simpl in Hbranch.
  destruct (_has_related_parties_not_on_aps p) as [b|e] eqn:Hrel.
  - pose proof (non_owner_related p b Htitles Hrel) as ->.
    rewrite (assess_non_homeowner_run p _ false Hrel) in Hbranch.
    inversion Hbranch as [[Ht Ha Hs]]. simpl.
    split; [apply Htier|]. split; [reflexivity|]. split; [exact Hreason|].
    split.
    + unfold _is_buyer_on_primary_residence_title. rewrite Htitles. simpl.
      rewrite andb_true_r. reflexivity.
    + unfold _get_risk_factors in Hf. rewrite Hown in Hf. simpl in Hf.
      destruct (home_value_to_price p); simpl in Hf; [|discriminate].
      destruct (reporter_deposit_pct p); simpl in Hf; [|discriminate].
      inversion Hf.
      destruct (75 <? DISTANCE p)%float, (age_risk (PURCHASER_AGE_FROM_ID p));
        reflexivity.
  - unfold _assess_non_homeowner in Hbranch.
    rewrite guarded_pct_ok, bind_lift_Ok, Hrel, bind_lift_Raise in Hbranch.
    discriminate Hbranch.
Qed.

Lemma first_time_buyer_verdict_witness :
  _check_ownership (first_time_buyer 200000 700000) = false
  /\ exists v, fst (assess_buyer_risk (first_time_buyer 200000 700000) init) = Ok v
       /\ risk_level v = VERY_HIGH
       /\ suggested_actions v = ["Request 25% downpayment proof"].
Proof.
  split; [reflexivity|].
  eexists. split; [vm_compute; reflexivity|].
  match goal with
  | |- risk_level ?v = _ /\ _ =>
      pose proof (first_time_buyer_verdict (first_time_buyer 200000 700000) init v
                    eq_refl eq_refl) as [H1 [_ [_ [H4 _]]]]
  end.
  split; [exact H1 | exact H4].
Defined.

(** X8.  In the non-owner branch the related-party escalation goes through
    the ladder, which [NO_RISK] is not on: when the override is off and the
    price/deposit table leaves [NO_RISK], a related party changes nothing
    in the tier, whatever the price; only the action is added. *)
Theorem related_party_leaves_NO_RISK (p : BuyerData) (s : BuyerRiskAssessor) :
  _has_high_risk_overrides p = false ->
  _has_related_parties_not_on_aps p = Ok true ->
  spec_price_deposit_table (PROPERTY_PRICE p)
    (pct (PURCHASER_DEPOSIT_PAID_FROM_APS p) (PROPERTY_PRICE p)) = NO_RISK ->
  exists actions,
    _assess_non_homeowner p s
    = (Ok (NO_RISK, "Add related parties to APS" :: actions), s).
Proof.
  intros Hover Hrel Htable.
  rewrite (assess_non_homeowner_run p s true Hrel), Hover, price_tier_checks_table, Htable.
  eexists. destruct (1000000 <? PROPERTY_PRICE p)%float; reflexivity.
Qed.

Lemma related_party_leaves_NO_RISK_witness :
  _has_related_parties_not_on_aps
    (sample "John Smith" 40 [] ["Jane Smith"] 50000 0 0 700000) = Ok true
  /\ exists actions,
       _assess_non_homeowner (sample "John Smith" 40 [] ["Jane Smith"] 50000 0 0 700000)
         init
       = (Ok (NO_RISK, "Add related parties to APS" :: actions), init).
Proof.
  split; [reflexivity|].
  exact (related_party_leaves_NO_RISK
           (sample "John Smith" 40 [] ["Jane Smith"] 50000 0 0 700000) init
           eq_refl eq_refl eq_refl).
Defined.

(* ================================================================== *)
(** ** Owners *)

Lemma any_related_true (l : string) (known owners : list string) :
  any_related l known owners = Ok true ->
  exists name, In name owners /\ contains name known = false.
Proof.
  induction owners as [|name rest IH]; simpl; [discriminate|].
  destruct (last_name name) as [x|e]; simpl; [|discriminate].
  destruct ((x =? l) && negb (contains name known)) eqn:E.
  - intros _. apply andb_true_iff in E. destruct E as [_ E].
    apply negb_true_iff in E. exists name. auto.
  - intros H. destruct (IH H) as [n [Hin Hn]]. exists n. auto.
Qed.

Lemma related_implies_missing (p : BuyerData) :
  _has_related_parties_not_on_aps p = Ok true -> _is_missing_coowner_on_aps p = true.
Proof.
  unfold _has_related_parties_not_on_aps, _is_missing_coowner_on_aps.
  destruct (last_name (PURCHASER_NAME_FROM_APS p)) as [l|e]; simpl; [|discriminate].
  intros H. apply any_related_true in H. destruct H as [name [Hin Hn]].
  apply existsb_exists. exists name. split; [exact Hin|].
  apply negb_true_iff. exact Hn.
Qed.

Lemma owner_tier_range_increase (t : RiskTier) (n : nat) :
  owner_tier_range t -> owner_tier_range (_increase_risk t n).
Proof.
  unfold owner_tier_range.
  intros [-> | [-> | [-> | ->]]]; destruct n as [|[|[|[|n]]]]; vm_compute; tauto.
Qed.

Lemma equity_tier_range (e : float) (t : RiskTier) :
  owner_tier_range t -> owner_tier_range (equity_tier e t).
Proof.
  intros H. unfold equity_tier.
  destruct (e <? 5)%float; [unfold owner_tier_range; tauto|].
  destruct (e <? 15)%float; [apply owner_tier_range_increase, H|].
  destruct (e <? 25)%float; [apply owner_tier_range_increase, H | exact H].
Qed.

Lemma ratio_tier_range (t : RiskTier) (price home_value : float) :
  owner_tier_range (home_value_ratio_check t price home_value).
Proof.
  unfold home_value_ratio_check, owner_tier_range.
  destruct (0.75 * price <=? home_value)%float; [tauto|].
  destruct ((0x1.3333333333333p-1 * price <=? home_value)%float
            && (home_value <? 0.75 * price)%float); tauto.
Qed.

Lemma five_steps (t : RiskTier) :
  owner_tier_range t ->
  _increase_risk (_increase_risk (_increase_risk t 1) 2) 2 = VERY_HIGH.
Proof. intros [-> | [-> | [-> | ->]]]; reflexivity. Qed.

(** X9.  A related party is by definition a title holder who is not on the
    agreement, so in the owner branch the missing-co-owner check fires
    whenever the related-party check does: the two escalations add up to
    five steps and the branch returns [VERY_HIGH], with both reasons and
    the related-party action. *)
Theorem owner_related_party_is_VERY_HIGH (p : BuyerData) (s : BuyerRiskAssessor) :
  _has_related_parties_not_on_aps p = Ok true ->
  _is_missing_coowner_on_aps p = true
  /\ exists rs,
       _assess_homeowner p s
       = (Ok (VERY_HIGH, ["Add related parties to APS";
                          "Verify property ownership and equity"]),
          mkAssessor (REASONS s ++ rs
                      ++ ["Same last name different addresses.";
                          "Missing co-owner on APS"])).
Proof.
  intros Hrel. pose proof (related_implies_missing p Hrel) as Hmiss.
  split; [exact Hmiss|].
  exists (equity_reasons (pct (PRIMARY_RESIDENCE_EQUITY p) (PROPERTY_PRICE p))).
  rewrite (assess_homeowner_run p s true Hrel), Hmiss.
  rewrite five_steps by (apply equity_tier_range, ratio_tier_range).
  reflexivity.
Qed.

Lemma owner_related_party_is_VERY_HIGH_witness :
  _has_related_parties_not_on_aps owner_with_relative = Ok true
  /\ _is_missing_coowner_on_aps owner_with_relative = true
  /\ fst (_assess_homeowner owner_with_relative init)
     = Ok (VERY_HIGH, ["Add related parties to APS";
                       "Verify property ownership and equity"]).
Proof.
  split; [reflexivity|].
  destruct (owner_related_party_is_VERY_HIGH owner_with_relative init eq_refl)
    as [Hmiss [rs Hrun]].
  split; [exact Hmiss|]. rewrite Hrun. reflexivity.
Defined.

Lemma assess_homeowner_range (p : BuyerData) (s s' : BuyerRiskAssessor)
    (t : RiskTier) (actions : list string) :
  _assess_homeowner p s = (Ok (t, actions), s') -> owner_tier_range t.
Proof.
  destruct (_has_related_parties_not_on_aps p) as [b|e] eqn:Hrel.
  - rewrite (assess_homeowner_run p s b Hrel). intros H. inversion H as [[Ht Ha Hs]].
    assert (He : owner_tier_range
                   (equity_tier (pct (PRIMARY_RESIDENCE_EQUITY p) (PROPERTY_PRICE p))
                      (home_value_ratio_check MEDIUM (PROPERTY_PRICE p)
                         (PRIMARY_RESIDENCE_VALUE_FROM_AVM p))))
      by (apply equity_tier_range, ratio_tier_range).
    destruct b, (_is_missing_coowner_on_aps p);
      repeat apply owner_tier_range_increase; exact He.
  - unfold _assess_homeowner.
    rewrite guarded_pct_ok, bind_lift_Ok, Hrel.
    erewrite bind_run by apply equity_checks_run.
    rewrite bind_lift_Raise. discriminate.
Qed.

(** X10.  No verdict is [NO_RISK] or [VERY_LOW]: the tier of a verdict is
    [LOW] or above.  ([LOW] is reached: an owner whose home is worth three
    quarters of the price, with ample equity and consistent papers.) *)
Theorem verdict_is_at_least_LOW (p : BuyerData) (s : BuyerRiskAssessor) (v : Verdict) :
  fst (assess_buyer_risk p s) = Ok v ->
  ladder_le LOW (risk_level v)
  /\ risk_level v <> NO_RISK /\ risk_level v <> VERY_LOW.
Proof.
  intros Hv.
  assert (Hle : ladder_le LOW (risk_level v)).
  { destruct (verdict_inv p s v Hv) as [t [actions [s1 [factors [Hbranch [_ ->]]]]]].
    simpl. destruct (_check_ownership p) eqn:Hown; simpl in Hbranch.
    - pose proof (assess_homeowner_range p _ _ _ _ Hbranch) as Hrange.
      assert (Hon : t <> NO_RISK)
        by (destruct Hrange as [-> | [-> | [-> | ->]]]; discriminate).
      apply (ladder_le_trans _ t); [|apply general_tier_above, Hon].
      destruct Hrange as [-> | [-> | [-> | ->]]]; vm_compute; lia.
    - destruct (non_owner_lists p Hown) as [_ Hreg].
      rewrite (proj1 (non_owner_general p Hreg)). vm_compute. lia. }
  split; [exact Hle|].
  destruct (risk_level v); vm_compute in Hle; split; try discriminate; lia.
Qed.

Lemma verdict_is_at_least_LOW_witness :
  exists v, fst (assess_buyer_risk (owner 750000 450000 800000) init) = Ok v
            /\ risk_level v = LOW /\ ladder_le LOW (risk_level v).
Proof.
  eexists. split; [vm_compute; reflexivity|].
  split; [reflexivity|].
  match goal with
  | |- ladder_le LOW (risk_level ?v) =>
      exact (proj1 (verdict_is_at_least_LOW (owner 750000 450000 800000) init v eq_refl))
  end.
Defined.

(* ================================================================== *)
(** ** The risk factors next to the reasons *)

Lemma in_said (x : string) (c : bool) (r : string) :
  In x (said c r) <-> c = true /\ r = x.
Proof. destruct c; simpl; split; intros H; try tauto; destruct H; discriminate. Qed.

Lemma risk_factors_value (p : BuyerData) :
  (PROPERTY_PRICE p =? 0)%float = false ->
  _get_risk_factors p
  = Ok ([if _check_ownership p then Existing_property_owner else First_time_homebuyer;
         Home_value_to_price_ratio
           (PRIMARY_RESIDENCE_VALUE_FROM_AVM p / PROPERTY_PRICE p)%float;
         Deposit (PURCHASER_DEPOSIT_PAID_FROM_APS p / PROPERTY_PRICE p * 100)%float]
        ++ (if c_distance p then [Long_distance (DISTANCE p)] else [])
        ++ (if age_risk (PURCHASER_AGE_FROM_ID p)
            then [Age_risk_factor (PURCHASER_AGE_FROM_ID p)] else [])).
Proof.
  intros Hp. unfold _get_risk_factors, home_value_to_price, reporter_deposit_pct,
    truediv, c_distance.
  rewrite Hp. simpl.
  destruct (_check_ownership p), (75 <? DISTANCE p)%float,
    (age_risk (PURCHASER_AGE_FROM_ID p)); reflexivity.
Qed.

Lemma distance_reason_iff (p : BuyerData) :
  In "Long distance (>75km)" (general_reasons p) <-> c_distance p = true.
Proof.
  unfold general_reasons, before_age_reasons. rewrite !in_app_iff, !in_said.
  unfold landregistry_reason, age_reason. split.
  - intros H.
    repeat match type of H with _ \/ _ => destruct H as [H|H] end;
      destruct H as [Hc He]; try exact Hc; try discriminate He.
    + destruct (truthy (PURCHASER_ADDRESS_LIST_FROM_LANDREGISTRY p)); discriminate He.
  - intros H. assert (c_distance p = true /\ "Long distance (>75km)" = "Long distance (>75km)")
      by auto. tauto.
Qed.

Lemma age_reason_iff (p : BuyerData) :
  In (age_reason (PURCHASER_AGE_FROM_ID p)) (general_reasons p)
  <-> age_risk (PURCHASER_AGE_FROM_ID p) = true.
Proof.
  unfold general_reasons, before_age_reasons. rewrite !in_app_iff, !in_said.
  unfold landregistry_reason. split.
  - intros H.
    repeat match type of H with _ \/ _ => destruct H as [H|H] end;
      destruct H as [Hc He]; try exact Hc; unfold age_reason in He; simpl in He;
      try discriminate He.
    + destruct (truthy (PURCHASER_ADDRESS_LIST_FROM_LANDREGISTRY p)); discriminate He.
  - intros H.
    assert (age_risk (PURCHASER_AGE_FROM_ID p) = true
            /\ age_reason (PURCHASER_AGE_FROM_ID p) = age_reason (PURCHASER_AGE_FROM_ID p))
      by auto.
    tauto.
Qed.

(** X11.  When the reporter returns, the price is not zero and the list
    opens with the ownership label that matches the ownership check,
    followed by the value ratio and the deposit percentage; for a positive
    price that percentage is the one the non-owner branch uses.  The
    distance factor is listed exactly when the general pass gives the
    distance reason, and the age factor exactly when it gives the age
    reason. *)
Theorem risk_factors_agree_with_pass (p : BuyerData) (factors : list RiskFactor) :
  _get_risk_factors p = Ok factors ->
  (PROPERTY_PRICE p =? 0)%float = false
  /\ 3 <= List.length factors <= 5
  /\ hd_error factors
     = Some (if _check_ownership p then Existing_property_owner else First_time_homebuyer)
  /\ nth_error factors 2
     = Some (Deposit (PURCHASER_DEPOSIT_PAID_FROM_APS p / PROPERTY_PRICE p * 100)%float)
  /\ ((0 <? PROPERTY_PRICE p)%float = true ->
      nth_error factors 2
      = Some (Deposit (pct (PURCHASER_DEPOSIT_PAID_FROM_APS p) (PROPERTY_PRICE p))))
  /\ (In (Long_distance (DISTANCE p)) factors
      <-> In "Long distance (>75km)" (general_reasons p))
  /\ (In (Age_risk_factor (PURCHASER_AGE_FROM_ID p)) factors
      <-> In (age_reason (PURCHASER_AGE_FROM_ID p)) (general_reasons p)).
Proof.
  intros Hf.
  assert (Hp : (PROPERTY_PRICE p =? 0)%float = false).
  { destruct (PROPERTY_PRICE p =? 0)%float eqn:E; [|reflexivity].
    unfold _get_risk_factors in Hf.
    rewrite (truediv_zero _ _ E : home_value_to_price p = _) in Hf. discriminate Hf. }
  rewrite (risk_factors_value p Hp) in Hf. inversion Hf as [Hl]. clear Hf.
  rewrite distance_reason_iff, age_reason_iff.
  split; [exact Hp|].
  split; [destruct (c_distance p), (age_risk (PURCHASER_AGE_FROM_ID p)); simpl; lia|].
  split; [reflexivity|]. split; [reflexivity|].
  split; [intros Hpos; unfold pct; rewrite Hpos; reflexivity|].
  split.
  - destruct (c_distance p), (age_risk (PURCHASER_AGE_FROM_ID p)),
      (_check_ownership p); simpl; split; intros H;
      first [ reflexivity
            | repeat destruct H as [H|H]; first [discriminate H | contradiction]
            | auto 10 ].
  - destruct (c_distance p), (age_risk (PURCHASER_AGE_FROM_ID p)),
      (_check_ownership p); simpl; split; intros H;
      first [ reflexivity
            | repeat destruct H as [H|H]; first [discriminate H | contradiction]
            | auto 10 ].
Qed.

Lemma risk_factors_agree_with_pass_witness :
  exists factors,
    _get_risk_factors (sample "John Smith" 25 [] [] 200000 0 0 700000) = Ok factors
    /\ List.length factors = 4
    /\ In (Age_risk_factor 25) factors
    /\ In "Age risk (25 years)"
         (general_reasons (sample "John Smith" 25 [] [] 200000 0 0 700000)).
Proof.
  eexists. split; [vm_compute; reflexivity|].
  split; [reflexivity|].
  match goal with
  | |- In _ ?fs /\ _ =>
      pose proof (risk_factors_agree_with_pass
                    (sample "John Smith" 25 [] [] 200000 0 0 700000) fs eq_refl)
        as [_ [_ [_ [_ [_ [_ Hage]]]]]]
  end.
  assert (Hin : In (Age_risk_factor 25)
                  [First_time_homebuyer;
                   Home_value_to_price_ratio (0 / 700000)%float;
                   Deposit (200000 / 700000 * 100)%float;
                   Age_risk_factor 25]) by (simpl; tauto).
  split; [exact Hin|]. exact (proj1 Hage Hin).
Defined.

(* ================================================================== *)
(** ** When an assessment returns *)

Lemma branch_raises (p : BuyerData) (s : BuyerRiskAssessor) (e : exn) :
  _has_related_parties_not_on_aps p = Raise e ->
  exists s',
    (if negb (_check_ownership p) then _assess_non_homeowner p
     else _assess_homeowner p) s = (Raise e, s').
Proof.
  intros Hrel. destruct (negb (_check_ownership p)).
  - unfold _assess_non_homeowner.
    rewrite guarded_pct_ok, bind_lift_Ok, Hrel, bind_lift_Raise. eexists. reflexivity.
  - unfold _assess_homeowner.
    rewrite guarded_pct_ok, bind_lift_Ok, Hrel.
    erewrite bind_run by apply equity_checks_run.
    rewrite bind_lift_Raise. eexists. reflexivity.
Qed.

Lemma branch_returns (p : BuyerData) (s : BuyerRiskAssessor) (b : bool) :
  _has_related_parties_not_on_aps p = Ok b ->
  exists t actions s',
    (if negb (_check_ownership p) then _assess_non_homeowner p
     else _assess_homeowner p) s = (Ok (t, actions), s').
Proof.
  intros Hrel. destruct (negb (_check_ownership p)).
  - rewrite (assess_non_homeowner_run p s b Hrel). eexists _, _, _. reflexivity.
  - rewrite (assess_homeowner_run p s b Hrel). eexists _, _, _. reflexivity.
Qed.

(** X12.  An assessment fails in two ways only.  If the related-party
    predicate raises, the assessment raises [IndexError], whatever the
    price.  If it returns and the price is zero, the assessment raises
    [ZeroDivisionError].  If it returns and the price is not zero, there is
    a verdict.  So a verdict exists exactly when the predicate returns and
    the price is not zero. *)
Theorem assessment_outcome (p : BuyerData) (s : BuyerRiskAssessor) :
  (forall e, _has_related_parties_not_on_aps p = Raise e ->
     fst (assess_buyer_risk p s) = Raise IndexError)
  /\ (forall b, _has_related_parties_not_on_aps p = Ok b ->
      (PROPERTY_PRICE p =? 0)%float = true ->
      fst (assess_buyer_risk p s) = Raise ZeroDivisionError)
  /\ (forall b, _has_related_parties_not_on_aps p = Ok b ->
      (PROPERTY_PRICE p =? 0)%float = false ->
      exists v, fst (assess_buyer_risk p s) = Ok v)
  /\ ((exists v, fst (assess_buyer_risk p s) = Ok v) <->
      (exists b, _has_related_parties_not_on_aps p = Ok b)
      /\ (PROPERTY_PRICE p =? 0)%float = false).
Proof.
  assert (H1 : forall e, _has_related_parties_not_on_aps p = Raise e ->
                         fst (assess_buyer_risk p s) = Raise IndexError).
  { intros e Hrel.
    assert (e = IndexError) as ->.
    { unfold _has_related_parties_not_on_aps in Hrel.
      destruct (last_name (PURCHASER_NAME_FROM_APS p)) as [l|e'] eqn:E; simpl in Hrel.
      - apply (any_related_only_IndexError _ _ _ _ Hrel).
      - inversion Hrel. subst. apply (last_name_only_IndexError _ _ E). }
    rewrite assess_buyer_risk_unfold.
    destruct (branch_raises p (mkAssessor []) _ Hrel) as [s' ->]. reflexivity. }
  assert (H2 : forall b, _has_related_parties_not_on_aps p = Ok b ->
                         (PROPERTY_PRICE p =? 0)%float = true ->
                         fst (assess_buyer_risk p s) = Raise ZeroDivisionError).
  { intros b Hrel Hp. rewrite assess_buyer_risk_unfold.
    destruct (branch_returns p (mkAssessor []) b Hrel) as [t [a [s' ->]]].
    unfold _get_risk_factors.
    rewrite (truediv_zero _ _ Hp : home_value_to_price p = _). reflexivity. }
  assert (H3 : forall b, _has_related_parties_not_on_aps p = Ok b ->
                         (PROPERTY_PRICE p =? 0)%float = false ->
                         exists v, fst (assess_buyer_risk p s) = Ok v).
  { intros b Hrel Hp. rewrite assess_buyer_risk_unfold.
    destruct (branch_returns p (mkAssessor []) b Hrel) as [t [a [s' ->]]].
    rewrite (risk_factors_value p Hp). eexists. reflexivity. }
  split; [exact H1|]. split; [exact H2|]. split; [exact H3|].
  split.
  - intros [v Hv].
    destruct (_has_related_parties_not_on_aps p) as [b|e] eqn:Hrel.
    + split; [exists b; reflexivity|].
      destruct (PROPERTY_PRICE p =? 0)%float eqn:Hp; [|reflexivity].
      rewrite (H2 b eq_refl eq_refl) in Hv. discriminate Hv.
    + rewrite (H1 e eq_refl) in Hv. discriminate Hv.
  - intros [[b Hrel] Hp]. apply (H3 b Hrel Hp).
Qed.

Lemma assessment_outcome_witness :
  _has_related_parties_not_on_aps (sample "" 40 [] [] 0 0 0 0) = Raise IndexError
  /\ (PROPERTY_PRICE (sample "" 40 [] [] 0 0 0 0) =? 0)%float = true
  /\ fst (assess_buyer_risk (sample "" 40 [] [] 0 0 0 0) init) = Raise IndexError
  /\ exists v, fst (assess_buyer_risk (owner 750000 450000 800000) init) = Ok v.
Proof.
  split; [reflexivity|]. split; [reflexivity|].
  split.
  - exact (proj1 (assessment_outcome (sample "" 40 [] [] 0 0 0 0) init)
             IndexError eq_refl).
  - exact (proj1 (proj2 (proj2 (assessment_outcome (owner 750000 450000 800000) init)))
             false eq_refl eq_refl).
Defined.

(* ================================================================== *)
(** ** [_has_multiple_buyers_different_addresses] *)

Lemma add_address_spec (acc : set string) (a x : string) :
  In x (add_address acc a) <-> In x acc \/ (x = a /\ a <> "").
Proof.
  unfold add_address, nonempty.
  destruct (a =? "") eqn:E; simpl.
  - apply String.eqb_eq in E. subst. tauto.
  - apply String.eqb_neq in E. rewrite set_add_iff. tauto.
Qed.

Lemma add_address_nodup (acc : set string) (a : string) :
  NoDup acc -> NoDup (add_address acc a).
Proof.
  intros H. unfold add_address. destruct (nonempty a); [|exact H].
  apply set_add_nodup, H.
Qed.

Lemma fold_add_address (l : list string) (acc : set string) :
  NoDup acc ->
  NoDup (fold_left add_address l acc)
  /\ forall x, In x (fold_left add_address l acc) <-> In x acc \/ (In x l /\ x <> "").
Proof.
  revert acc. induction l as [|a l IH]; intros acc Hnd; simpl.
  - split; [exact Hnd | intros x; tauto].
  - destruct (IH (add_address acc a) (add_address_nodup acc a Hnd)) as [H1 H2].
    split; [exact H1|]. intros x. rewrite H2, add_address_spec.
    split.
    + intros [[H|[-> H]]|[H H']]; auto.
    + intros [H|[[<-|H] H']]; auto.
Qed.

Lemma fold_cosigner_addresses (l : list CoSigner) (acc : set string) :
  fold_left (fun acc cosigner => add_address acc (CO_SIGNER_ADDRESS_FROM_APS cosigner)) l acc
  = fold_left add_address (map CO_SIGNER_ADDRESS_FROM_APS l) acc.
Proof. revert acc. induction l as [|c l IH]; intros acc; simpl; [reflexivity | apply IH]. Qed.

Lemma two_distinct (l : list string) :
  NoDup l ->
  ((1 <? List.length l)%nat = true <-> exists a b, In a l /\ In b l /\ a <> b).
Proof.
  intros Hnd. rewrite Nat.ltb_lt. split.
  - destruct l as [|a [|b l]]; simpl; try lia. intros _.
    exists a, b. split; [auto|]. split; [auto|].
    inversion Hnd as [|x xs Hnotin _]. subst. intros ->. apply Hnotin. simpl. auto.
  - intros [a [b [Ha [Hb Hab]]]].
    destruct l as [|x [|y l]]; simpl in *; try lia; try contradiction.
    destruct Ha as [<-|[]], Hb as [<-|[]]. contradiction.
Qed.

Lemma multiple_buyers_value (p : BuyerData) :
  _has_multiple_buyers_different_addresses p
  = match CO_SIGNER_LIST_FROM_APS p with
    | [] => false
    | _ :: _ =>
        (1 <? List.length (fold_left add_address (buyer_addresses p) (empty_set string)))%nat
    end.
Proof.
  unfold _has_multiple_buyers_different_addresses, aps_names.
  rewrite fold_cosigner_addresses.
  change (add_address
            (add_address (empty_set string) (PURCHASER_ADDRESS_FROM_ID p))
            (PURCHASER_ADDRESS_FROM_APS p))
    with (fold_left add_address
            [PURCHASER_ADDRESS_FROM_ID p; PURCHASER_ADDRESS_FROM_APS p] (empty_set string)).
  rewrite <- fold_left_app. fold (buyer_addresses p).
  generalize (fold_left add_address (buyer_addresses p) (empty_set string)). intros S.
  simpl List.length. rewrite length_map.
  destruct (CO_SIGNER_LIST_FROM_APS p); reflexivity.
Qed.

(** X13.  [_has_multiple_buyers_different_addresses] is false when there is
    no co-signer, whatever the addresses; with a co-signer it is true
    exactly when two different non-empty addresses occur among the
    purchaser's ID address, the purchaser's agreement address and the
    co-signers' agreement addresses. *)
Theorem multiple_buyers_different_addresses_iff (p : BuyerData) :
  (CO_SIGNER_LIST_FROM_APS p = [] -> _has_multiple_buyers_different_addresses p = false)
  /\ (_has_multiple_buyers_different_addresses p = true <->
      CO_SIGNER_LIST_FROM_APS p <> []
      /\ exists a b, In a (buyer_addresses p) /\ In b (buyer_addresses p)
                     /\ a <> "" /\ b <> "" /\ a <> b).
Proof.
  rewrite multiple_buyers_value.
  destruct (fold_add_address (buyer_addresses p) (empty_set string) (NoDup_nil _))
    as [Hnd Hin].
  revert Hnd Hin.
  generalize (fold_left add_address (buyer_addresses p) (empty_set string)).
  intros S Hnd Hin.
  destruct (CO_SIGNER_LIST_FROM_APS p) as [|c cs].
  - split; [reflexivity|]. split; [discriminate|]. intros [H _]. contradiction.
  - split; [discriminate|].
    rewrite (two_distinct _ Hnd). split.
    + intros [a [b [Ha [Hb Hab]]]]. apply Hin in Ha, Hb.
      destruct Ha as [[]|[Ha Ha']], Hb as [[]|[Hb Hb']].
      split; [discriminate|]. exists a, b. auto.
    + intros [_ [a [b [Ha [Hb [Ha' [Hb' Hab]]]]]]].
      exists a, b. split; [apply Hin; auto|]. split; [apply Hin; auto | exact Hab].
Qed.

Lemma multiple_buyers_different_addresses_iff_witness :
  _has_multiple_buyers_different_addresses
    (sample_with [] (sample "John Smith" 40 [] [] 0 0 0 0)) = false
  /\ _has_multiple_buyers_different_addresses
       (sample_with [cosigner_at "Jane Smith" "9 Elm St"]
          (sample "John Smith" 40 [] [] 0 0 0 0)) = true
  /\ _has_multiple_buyers_different_addresses
       (sample_with [cosigner_at "Jane Smith" main_st]
          (sample "John Smith" 40 [] [] 0 0 0 0)) = false.
Proof.
  split.
  - exact (proj1 (multiple_buyers_different_addresses_iff
                    (sample_with [] (sample "John Smith" 40 [] [] 0 0 0 0))) eq_refl).
  - split; reflexivity.
Defined.

(* ================================================================== *)
(** ** Owners' verdicts and the fallback of the equity percentage *)

(** X14.  The verdict of an owner closes its actions with "Verify property
    ownership and equity", preceded by the related-party action when that
    check fired, and never asks for the downpayment proof; its reasons are
    the equity reason, the related-party reason and the missing-co-owner
    reason, in that order and each only if its check fired, followed by
    the reasons of the general pass; its first risk factor is "Existing
    property owner". *)
Theorem owner_verdict (p : BuyerData) (s : BuyerRiskAssessor) (v : Verdict) :
  _check_ownership p = true ->
  fst (assess_buyer_risk p s) = Ok v ->
  exists b,
    _has_related_parties_not_on_aps p = Ok b
    /\ suggested_actions v
       = said b "Add related parties to APS" ++ ["Verify property ownership and equity"]
    /\ ~ In "Request 25% downpayment proof" (suggested_actions v)
    /\ reasons v
       = equity_reasons (pct (PRIMARY_RESIDENCE_EQUITY p) (PROPERTY_PRICE p))
         ++ said b "Same last name different addresses."
         ++ said (_is_missing_coowner_on_aps p) "Missing co-owner on APS"
         ++ general_reasons p
    /\ hd_error (risk_factors v) = Some Existing_property_owner.
Proof.
  intros Hown Hv.
  destruct (verdict_inv p s v Hv) as [t [actions [s1 [factors [Hbranch [Hf ->]]]]]].
  rewrite Hown in Hbranch. simpl in Hbranch.
  destruct (_has_related_parties_not_on_aps p) as [b|e] eqn:Hrel.
  - exists b. split; [reflexivity|].
    rewrite (assess_homeowner_run p _ b Hrel) in Hbranch.
    inversion Hbranch as [[Ht Ha Hs]]. simpl.
    split; [reflexivity|].
    split; [destruct b; simpl; intros H; repeat destruct H as [H|H];
            first [discriminate H | contradiction]|].
    split; [rewrite <- !app_assoc; reflexivity|].
    unfold _get_risk_factors in Hf. rewrite Hown in Hf. simpl in Hf.
    destruct (home_value_to_price p); simpl in Hf; [|discriminate].
    destruct (reporter_deposit_pct p); simpl in Hf; [|discriminate].
    inversion Hf.
    destruct (75 <? DISTANCE p)%float, (age_risk (PURCHASER_AGE_FROM_ID p)); reflexivity.
  - destruct (branch_raises p (mkAssessor []) e Hrel) as [s' Hraise].
    rewrite Hown in Hraise. simpl in Hraise. rewrite Hraise in Hbranch.
    discriminate Hbranch.
Qed.

Lemma owner_verdict_witness :
  _check_ownership (owner 650000 50000 800000) = true
  /\ exists v, fst (assess_buyer_risk (owner 650000 50000 800000) init) = Ok v
       /\ suggested_actions v = ["Verify property ownership and equity"]
       /\ reasons v = ["Low equity (5-15%)"].
Proof.
  split; [reflexivity|].
  eexists. split; [vm_compute; reflexivity|].
  match goal with
  | |- suggested_actions ?v = _ /\ _ =>
      destruct (owner_verdict (owner 650000 50000 800000) init v eq_refl eq_refl)
        as [b [Hrel [Ha [_ [Hr _]]]]]
  end.
  assert (b = false) as -> by (vm_compute in Hrel; inversion Hrel; reflexivity).
  split; [exact Ha|]. rewrite Hr. reflexivity.
Defined.

(** X15.  The equity percentage falls back to 0 when the price is not
    positive (zero, negative or not a number), and 0 is below 5: for such a
    price the owner branch, when it returns, returns [VERY_HIGH] and
    gives "Very low equity (<5%)" as its first reason, whatever the equity
    and the home value are. *)
Theorem owner_without_positive_price (p : BuyerData) (s s' : BuyerRiskAssessor)
    (t : RiskTier) (actions : list string) :
  (0 <? PROPERTY_PRICE p)%float = false ->
  _assess_homeowner p s = (Ok (t, actions), s') ->
  pct (PRIMARY_RESIDENCE_EQUITY p) (PROPERTY_PRICE p) = 0%float
  /\ t = VERY_HIGH
  /\ exists rs, REASONS s' = REASONS s ++ "Very low equity (<5%)" :: rs.
Proof.
  intros Hprice Hrun.
  assert (Hpct : pct (PRIMARY_RESIDENCE_EQUITY p) (PROPERTY_PRICE p) = 0%float)
    by (unfold pct; rewrite Hprice; reflexivity).
  split; [exact Hpct|].
  destruct (_has_related_parties_not_on_aps p) as [b|e] eqn:Hrel.
  - rewrite (assess_homeowner_run p s b Hrel), Hpct in Hrun.
    change (equity_tier 0 _) with VERY_HIGH in Hrun.
    change (equity_reasons 0) with ["Very low equity (<5%)"] in Hrun.
    inversion Hrun as [[Ht Ha Hs]]. split.
    + destruct b, (_is_missing_coowner_on_aps p); reflexivity.
    + simpl. eexists. reflexivity.
  - unfold _assess_homeowner in Hrun.
    rewrite guarded_pct_ok, bind_lift_Ok, Hrel in Hrun.
    erewrite bind_run in Hrun by apply equity_checks_run.
    rewrite bind_lift_Raise in Hrun. discriminate Hrun.
Qed.

Lemma owner_without_positive_price_witness :
  (0 <? PROPERTY_PRICE (owner 750000 450000 (-800000)))%float = false
  /\ exists t actions s',
       _assess_homeowner (owner 750000 450000 (-800000)) init = (Ok (t, actions), s')
       /\ t = VERY_HIGH.
Proof.
  split; [reflexivity|].
  eexists _, _, _. split; [vm_compute; reflexivity|].
  exact (proj1 (proj2 (owner_without_positive_price (owner 750000 450000 (-800000))
                         init _ _ _ eq_refl eq_refl))).
Defined.
